(* Verification of the OpenAlex API client (openalexcli/api/client.py):
   identifier normalisation, query parameter construction and the
   retry loop of [OpenAlexAPI._request]. *)

From Stdlib Require Import String Ascii List ZArith QArith Lia Bool.
Import ListNotations.
Set Warnings "-register-all".
Local Open Scope Z_scope.
Open Scope string_scope.

(* ------------------------------------------------------------------------- *)
(** * Python string primitives used by the client *)

Module Py.

(** [s.startswith(p)] *)
Definition startswith (s p : string) : bool := String.prefix p s.

(** [p in s] (substring test) *)
Fixpoint contains (p s : string) : bool :=
  String.prefix p s ||
  match s with
  | EmptyString => false
  | String _ s' => contains p s'
  end.

(** [s.replace(old, new)]: every non-overlapping occurrence of [old],
    scanned from the left, is replaced.  [skip] counts the characters of
    a match still to be dropped.  With an empty [old], [new] is inserted
    before every character and at the end, as in Python. *)
Fixpoint replace_go (old new s : string) (skip : nat) : string :=
  match s with
  | EmptyString =>
      match skip with
      | O => if String.prefix old EmptyString then new else EmptyString
      | S _ => EmptyString
      end
  | String c s' =>
      match skip with
      | S k => replace_go old new s' k
      | O =>
          if String.prefix old s then
            match old with
            | EmptyString => new ++ String c (replace_go old new s' 0)
            | String _ rest => new ++ replace_go old new s' (String.length rest)
            end
          else String c (replace_go old new s' 0)
      end
  end.

Definition replace (s old new : string) : string := replace_go old new s 0.

(** [s.lower()] on the ASCII characters of the model *)
Definition lower_char (c : ascii) : ascii :=
  let n := nat_of_ascii c in
  if (Nat.leb 65 n && Nat.leb n 90)%bool then ascii_of_nat (n + 32)%nat else c.

Fixpoint lower (s : string) : string :=
  match s with
  | EmptyString => EmptyString
  | String c s' => String (lower_char c) (lower s')
  end.

(** [s.split("/")[-1]]: the text after the last ["/"] *)
Fixpoint last_segment (s : string) : string :=
  match s with
  | EmptyString => EmptyString
  | String c s' =>
      if contains "/" s' then last_segment s'
      else if Ascii.eqb c "/"%char then s' else s
  end.

(** Truthiness of an optional string ([None] and [""] are false). *)
Definition truthy (o : option string) : bool :=
  match o with
  | Some s => negb (String.eqb s "")
  | None => false
  end.

(** [str(n)] for an int: decimal digits, with a leading ["-"] when negative. *)
Fixpoint pos_digits (fuel : nat) (z : Z) (acc : string) : string :=
  match fuel with
  | O => acc
  | S f =>
      let acc' := String (ascii_of_nat (48 + Z.to_nat (z mod 10))) acc in
      if (z <? 10)%Z then acc' else pos_digits f (z / 10)%Z acc'
  end.

Definition str_of_Z (z : Z) : string :=
  if (z <? 0)%Z then "-" ++ pos_digits (S (Z.to_nat (Z.log2 (- z)))) (- z)%Z ""
  else pos_digits (S (Z.to_nat (Z.log2 z))) z "".

End Py.

(* ------------------------------------------------------------------------- *)
(** * Identifier normalisation (OpenAlexAPI._normalize_*_id) *)

Module Normalize.
Import Py.

Definition OPENALEX_URL := "https://openalex.org/".

(** [_normalize_work_id] *)
Definition _normalize_work_id (work_id : string) : string :=
  if startswith work_id "W" || startswith work_id OPENALEX_URL then
    replace work_id OPENALEX_URL ""
  else if startswith work_id "10." || startswith work_id "doi:" then
    let doi := replace (replace work_id "doi:" "") "https://doi.org/" "" in
    "doi:" ++ doi
  else if startswith (lower work_id) "pmid:" then lower work_id
  else if startswith (lower work_id) "mag:" then lower work_id
  else if contains "openalex.org" work_id then last_segment work_id
  else work_id.

(** [_normalize_author_id] *)
Definition _normalize_author_id (author_id : string) : string :=
  if startswith author_id "A" || startswith author_id OPENALEX_URL then
    replace author_id OPENALEX_URL ""
  else if contains "orcid.org" author_id || startswith author_id "0000-" then
    let orcid := replace (replace author_id "https://orcid.org/" "") "orcid:" "" in
    "orcid:" ++ orcid
  else author_id.

(** [_normalize_institution_id] *)
Definition _normalize_institution_id (institution_id : string) : string :=
  if startswith institution_id "I" || startswith institution_id OPENALEX_URL then
    replace institution_id OPENALEX_URL ""
  else if contains "ror.org" institution_id then
    "ror:" ++ last_segment institution_id
  else if startswith institution_id "ror:" then institution_id
  else institution_id.

(** [_normalize_source_id] *)
Definition _normalize_source_id (source_id : string) : string :=
  if startswith source_id "S" || startswith source_id OPENALEX_URL then
    replace source_id OPENALEX_URL ""
  else if (String.length source_id =? 9)%nat &&
          match String.get 4 source_id with
          | Some c => Ascii.eqb c "-"%char
          | None => false
          end then
    "issn:" ++ source_id
  else if startswith (lower source_id) "issn:" then lower source_id
  else source_id.

End Normalize.

(* ------------------------------------------------------------------------- *)
(** * Query parameters (OpenAlexAPI._build_params, search_works) *)

Module Params.
Import Py.

(** A parameter value: the client stores strings and page numbers. *)
Inductive pval := PStr (s : string) | PInt (z : Z).

(** A Python dict with string keys, in insertion order. *)
Definition dict (V : Type) := list (string * V).

(** [d[k] = v]: an existing key keeps its position, a new one goes last. *)
Fixpoint dict_set {V} (k : string) (v : V) (d : dict V) : dict V :=
  match d with
  | [] => [(k, v)]
  | (k', v') :: d' =>
      if String.eqb k k' then (k, v) :: d' else (k', v') :: dict_set k v d'
  end.

Fixpoint dict_get {V} (k : string) (d : dict V) : option V :=
  match d with
  | [] => None
  | (k', v') :: d' => if String.eqb k k' then Some v' else dict_get k d'
  end.

(** [",".join(xs)] *)
Fixpoint join (sep : string) (xs : list string) : string :=
  match xs with
  | [] => ""
  | [x] => x
  | x :: xs' => x ++ sep ++ join sep xs'
  end.

(** The client object: only [email] is read by [_build_params]. *)
Record client := { email : option string; max_retries : Z; max_retry_wait : Z }.

(** Truthiness of an optional int and of an optional list. *)
Definition truthy_int (o : option Z) : bool :=
  match o with Some z => negb (Z.eqb z 0) | None => false end.
Definition truthy_list {A} (o : option (list A)) : bool :=
  match o with Some (_ :: _) => true | _ => false end.

Definition GROUP_SORTS : list string :=
  ["key"; "count"; "count:desc"; "count:asc"; "key:desc"; "key:asc"].

(** [sort in (...)]; [None] is never a member. *)
Definition in_group_sorts (sort : option string) : bool :=
  match sort with
  | Some s => existsb (String.eqb s) GROUP_SORTS
  | None => false
  end.

(** The clauses of the [filter] parameter: the explicit filter string when
    truthy, then ["key:value"] for every extra filter whose value is not
    [None], in the dict's order. *)
Definition filter_clauses (filter_str : option string)
    (extra_filters : option (dict (option string))) : list string :=
  let filters := match filter_str with
                 | Some f => if truthy filter_str then [f] else []
                 | None => []
                 end in
  let extra := match extra_filters with Some ef => ef | None => [] end in
  filters ++ flat_map (fun kv => match snd kv with
                                 | Some v => [fst kv ++ ":" ++ v]
                                 | None => []
                                 end) extra.

(** [_build_params] *)
Definition _build_params (self : client) (filter_str search sort : option string)
    (page per_page : option Z) (select : option (list string))
    (group_by : option string) (extra_filters : option (dict (option string)))
    : dict pval :=
  let params : dict pval := [] in
  let filters := filter_clauses filter_str extra_filters in
  let params := match filters with
                | [] => params
                | _ => dict_set "filter" (PStr (join "," filters)) params
                end in
  let params := match search with
                | Some q => if truthy search then dict_set "search" (PStr q) params
                            else params
                | None => params
                end in
  let params :=
    match group_by with
    | Some g =>
        if truthy group_by then
          let params := dict_set "group_by" (PStr g) params in
          match sort with
          | Some s => if in_group_sorts sort then dict_set "sort" (PStr s) params
                      else dict_set "sort" (PStr "count:desc") params
          | None => dict_set "sort" (PStr "count:desc") params
          end
        else params
    | None => params
    end in
  let params :=
    if truthy group_by then params
    else
      let params := match sort with
                    | Some s => if truthy sort then dict_set "sort" (PStr s) params
                                else params
                    | None => params
                    end in
      match select with
      | Some fields => if truthy_list select
                       then dict_set "select" (PStr (join "," fields)) params
                       else params
      | None => params
      end in
  let params := match page with
                | Some n => if truthy_int page then dict_set "page" (PInt n) params
                            else params
                | None => params
                end in
  let params := match per_page with
                | Some n => if truthy_int per_page then dict_set "per_page" (PInt n) params
                            else params
                | None => params
                end in
  match self.(email) with
  | Some e => if truthy self.(email) then dict_set "mailto" (PStr e) params else params
  | None => params
  end.

Definition DEFAULT_WORK_FIELDS : list string :=
  ["id"; "doi"; "title"; "publication_year"; "publication_date"; "type";
   "cited_by_count"; "open_access"; "authorships"; "primary_location";
   "abstract_inverted_index"; "topics"; "biblio"].

(** Python's [a or b] on optional strings and lists. *)
Definition or_str (a : option string) (b : string) : string :=
  match a with Some s => if truthy a then s else b | None => b end.
Definition or_list {A} (a : option (list A)) (b : list A) : list A :=
  match a with Some (x :: xs) => x :: xs | _ => b end.

(** An outgoing request: method, path and parameters. *)
Record request := { req_method : string; req_path : string; req_params : dict pval }.

(** [search_works], up to the call of [_request]: the request it issues.
    [min_citations] is rendered in decimal by [f">{min_citations}"]. *)
Definition search_works (self : client) (query filter_str from_date to_date : option string)
    (min_citations : option Z) (open_access : option bool)
    (work_type sort : option string) (page per_page : Z)
    (select : option (list string)) (group_by : option string) : request :=
  let extra_filters : dict (option string) := [] in
  let extra_filters := match from_date with
    | Some d => if truthy from_date
                then dict_set "from_publication_date" (Some d) extra_filters
                else extra_filters
    | None => extra_filters end in
  let extra_filters := match to_date with
    | Some d => if truthy to_date
                then dict_set "to_publication_date" (Some d) extra_filters
                else extra_filters
    | None => extra_filters end in
  let extra_filters := match min_citations with
    | Some m => dict_set "cited_by_count" (Some (">" ++ str_of_Z m)) extra_filters
    | None => extra_filters end in
  let extra_filters := match open_access with
    | Some true => dict_set "is_oa" (Some "true") extra_filters
    | _ => extra_filters end in
  let extra_filters := match work_type with
    | Some t => if truthy work_type then dict_set "type" (Some t) extra_filters
                else extra_filters
    | None => extra_filters end in
  let params := _build_params self filter_str query
                  (Some (or_str sort "cited_by_count:desc"))
                  (Some page) (Some per_page)
                  (Some (or_list select DEFAULT_WORK_FIELDS))
                  group_by (Some extra_filters) in
  {| req_method := "GET"; req_path := "/works"; req_params := params |}.

End Params.

(* ------------------------------------------------------------------------- *)
(** * The retry loop (OpenAlexAPI._request) *)

Module Request.
Import Py.
Import Params.

(** A decoded JSON document. *)
Inductive json :=
| JNull
| JBool (b : bool)
| JNum (z : Z)
| JStr (s : string)
| JList (l : list json)
| JObj (fields : list (string * json)).

(** What one [self.client.request(...)] call gives: a response (status
    code, the [Retry-After] header if sent, the body decoded as JSON, or
    [None] when it is not JSON), or an [httpx.RequestError]. *)
Inductive exchange :=
| Response (status : Z) (retry_after : option string) (body : option json)
| RequestError (msg : string).

(** [APIError] and its subclass [RateLimitError]. *)
Inductive api_error :=
| APIError (message : json) (status_code : option Z) (suggestion : option string)
| RateLimitError (retry_after : option Z).

Definition RATE_LIMIT_SUGGESTION :=
  "Wait a moment or add your email via --email or OPENALEX_EMAIL env var for higher limits".
Definition NOT_FOUND_SUGGESTION :=
  "Check the ID format. OpenAlex IDs start with W (works), A (authors), I (institutions), S (sources), etc.".

Definition err_message (e : api_error) : json :=
  match e with APIError m _ _ => m | RateLimitError _ => JStr "Rate limit exceeded" end.
Definition err_status_code (e : api_error) : option Z :=
  match e with APIError _ c _ => c | RateLimitError _ => Some 429%Z end.
Definition err_suggestion (e : api_error) : option string :=
  match e with APIError _ _ s => s | RateLimitError _ => Some RATE_LIMIT_SUGGESTION end.

(** How [_request] ends: the decoded payload, a raised [APIError], or an
    exception the method does not catch ([ValueError] from [int()] or
    [time.sleep], [JSONDecodeError] from [response.json()]). *)
Inductive result :=
| Ok (payload : json)
| Raise (e : api_error)
| Uncaught (exc : string).

(** Observable effects: an HTTP exchange at an attempt index, a status
    notice (attempt index and announced wait; the wall-clock resume time
    of the message is not modelled) and a [time.sleep]. *)
Inductive event :=
| Exchange (attempt : Z)
| Report (attempt wait : Z)
| Sleep (secs : Z).

(** [int(x)] on a float [x], i.e. truncation toward zero. *)
Definition Qtrunc (q : Q) : Z := Z.quot (Qnum q) (Zpos (Qden q)).

(** [int(wait_time * (0.75 + r * 0.5))] for the draw [r = random.random()]. *)
Definition jitter (wait_time : Z) (r : Q) : Z :=
  Qtrunc (inject_Z wait_time * ((3 # 4) + r * (1 # 2))).

Fixpoint assoc (k : string) (fs : list (string * json)) : option json :=
  match fs with
  | [] => None
  | (k', v) :: fs' => if String.eqb k k' then Some v else assoc k fs'
  end.

Section Loop.

(** Python's [int()] on a header string: [Some n], or [None] when it
    raises [ValueError]. *)
Variable py_int : string -> option Z.
(** The value [random.random()] returns at the 429 response of an attempt. *)
Variable draw : Z -> Q.
(** The exchange the transport yields at each attempt index. *)
Variable transport : Z -> exchange.
Variable self : client.

(** The jittered wait after a 429 response; [None] when [int(retry_after)]
    raises. *)
Definition wait_429 (attempt : Z) (retry_after : option string) : option Z :=
  let base := match retry_after with
              | Some s => if truthy retry_after then py_int s
                          else Some (Z.min (2 ^ attempt) self.(max_retry_wait))
              | None => Some (Z.min (2 ^ attempt) self.(max_retry_wait))
              end in
  match base with
  | Some w => Some (jitter w (draw attempt))
  | None => None
  end.

(** [time.sleep(w)]: a negative length raises [ValueError]. *)
Definition sleep (w : Z) : list event * option result :=
  if (w <? 0)%Z then ([], Some (Uncaught "ValueError")) else ([Sleep w], None).

(** One pass of the loop body after the exchange: its events, and
    [Some r] when the method ends there, [None] on [continue]. *)
Definition attempt_step (attempt : Z) : list event * option result :=
  match transport attempt with
  | Response status retry_after body =>
      if (status =? 200)%Z then
        ([], Some (match body with Some j => Ok j | None => Uncaught "JSONDecodeError" end))
      else if (status =? 429)%Z then
        match wait_429 attempt retry_after with
        | None => ([], Some (Uncaught "ValueError"))
        | Some w =>
            if (attempt <? self.(max_retries))%Z then
              let '(evs, o) := sleep w in (Report attempt w :: evs, o)
            else
              match retry_after with
              | Some s =>
                  if truthy retry_after then
                    match py_int s with
                    | Some n => ([], Some (Raise (RateLimitError (Some n))))
                    | None => ([], Some (Uncaught "ValueError"))
                    end
                  else ([], Some (Raise (RateLimitError None)))
              | None => ([], Some (Raise (RateLimitError None)))
              end
        end
      else if (status =? 404)%Z then
        ([], Some (Raise (APIError (JStr "Entity not found") (Some 404%Z)
                                   (Some NOT_FOUND_SUGGESTION))))
      else if (status =? 400)%Z then
        let message := match body with
                       | Some (JObj fs) =>
                           match assoc "message" fs with
                           | Some m => m
                           | None => JStr "Bad request"
                           end
                       | _ => JStr "Bad request"
                       end in
        ([], Some (Raise (APIError message (Some 400%Z)
                    (Some "Check the query parameters and filter syntax"))))
      else
        ([], Some (Raise (APIError (JStr ("API request failed: " ++ str_of_Z status))
                                   (Some status) None)))
  | RequestError e =>
      if (attempt <? self.(max_retries))%Z then
        let w := Z.min (2 ^ attempt) self.(max_retry_wait) in
        let '(evs, o) := sleep w in (Report attempt w :: evs, o)
      else
        ([], Some (Raise (APIError (JStr ("Connection error: " ++ e)) None
                                   (Some "Check your network connection"))))
  end.

(** [for attempt in range(...)] with [n] iterations left. *)
Fixpoint loop (n : nat) (attempt : Z) : result * list event :=
  match n with
  | O => (Raise (APIError (JStr ("Request failed after " ++ str_of_Z self.(max_retries)
                                 ++ " retries")) None None), [])
  | S n' =>
      let '(evs, o) := attempt_step attempt in
      match o with
      | Some r => (r, Exchange attempt :: evs)
      | None => let '(r, evs') := loop n' (attempt + 1) in
                (r, Exchange attempt :: evs ++ evs')
      end
  end.

(** [_request]: attempts [0 .. max_retries]. *)
Definition _request : result * list event :=
  loop (Z.to_nat (self.(max_retries) + 1)) 0.

End Loop.

(** A decimal parser standing for [int()] in concrete runs. *)
Fixpoint digits_value (s : string) (acc : Z) : option Z :=
  match s with
  | EmptyString => Some acc
  | String c s' =>
      let n := nat_of_ascii c in
      if (Nat.leb 48 n && Nat.leb n 57)%bool
      then digits_value s' (acc * 10 + Z.of_nat (n - 48))%Z else None
  end.

Definition dec_int (s : string) : option Z :=
  match s with EmptyString => None | _ => digits_value s 0 end.

(** The number of exchanges and of sleeps in a trace. *)
Definition count_exchanges (evs : list event) : nat :=
  length (filter (fun e => match e with Exchange _ => true | _ => false end) evs).
Definition count_sleeps (evs : list event) : nat :=
  length (filter (fun e => match e with Sleep _ => true | _ => false end) evs).

End Request.

(* ------------------------------------------------------------------------- *)
(** * Error serialisation and the endpoint methods of [OpenAlexAPI] *)

Module Api.
Import Py Normalize Params Request.

(** [APIError.to_dict]: ["status_code"] only when it is truthy (not [None],
    not 0), ["suggestion"] only when non-empty. *)
Definition to_dict (e : api_error) : dict json :=
  let result : dict json := [("error", err_message e)] in
  let result := match err_status_code e with
                | Some c => if truthy_int (Some c)
                            then dict_set "status_code" (JNum c) result else result
                | None => result
                end in
  let result := match err_suggestion e with
                | Some s => if truthy (Some s)
                            then dict_set "suggestion" (JStr s) result else result
                | None => result
                end in
  dict_set "documentation" (JStr "https://docs.openalex.org/") result.

Definition DEFAULT_AUTHOR_FIELDS : list string :=
  ["id"; "orcid"; "display_name"; "works_count"; "cited_by_count";
   "summary_stats"; "affiliations"; "last_known_institutions"; "topics"].

Definition DEFAULT_INSTITUTION_FIELDS : list string :=
  ["id"; "ror"; "display_name"; "country_code"; "type"; "works_count";
   "cited_by_count"; "summary_stats"].

Definition DEFAULT_SOURCE_FIELDS : list string :=
  ["id"; "issn_l"; "display_name"; "type"; "works_count"; "cited_by_count";
   "is_oa"; "summary_stats"].

(** How a method call ends: a value, an [APIError] it lets through, or
    another exception. *)
Inductive outcome (A : Type) :=
| Val (a : A)
| Exn (e : api_error)
| Crash (exc : string).
Arguments Val {A} a.
Arguments Exn {A} e.
Arguments Crash {A} exc.

(** A method call: its outcome and the requests it passed to [_request],
    in order. *)
Definition M (A : Type) := (outcome A * list request)%type.

Definition ret {A} (a : A) : M A := (Val a, []).

Definition bind {A B} (m : M A) (k : A -> M B) : M B :=
  match fst m with
  | Val a => let '(o, l) := k a in (o, (snd m ++ l)%list)
  | Exn e => (Exn e, snd m)
  | Crash x => (Crash x, snd m)
  end.

Notation "x <- m ;; k" := (bind m (fun x => k))
  (at level 61, m at next level, right associativity).

Section Methods.

(** What [self._request] returns for a request (the retry loop above
    decides it). *)
Variable answer : request -> result.
Variable self : client.

Definition call (r : request) : M json :=
  (match answer r with
   | Ok j => Val j
   | Raise e => Exn e
   | Uncaught x => Crash x
   end, [r]).

(** [{"select": ",".join(fields)}] plus [mailto], as the [get_*] methods
    build it. *)
Definition select_params (fields : list string) : dict pval :=
  let params : dict pval := [("select", PStr (join "," fields))] in
  match self.(email) with
  | Some e => if truthy self.(email) then dict_set "mailto" (PStr e) params else params
  | None => params
  end.

(** [entity["id"].replace("https://openalex.org/", "")] on the decoded
    entity (the API's objects have distinct keys). *)
Definition short_id (j : json) : M string :=
  match j with
  | JObj fs =>
      match assoc "id" fs with
      | Some (JStr s) => ret (replace s OPENALEX_URL "")
      | Some _ => (Crash "AttributeError", [])
      | None => (Crash "KeyError", [])
      end
  | _ => (Crash "TypeError", [])
  end.

Definition get_work (work_id : string) (select : option (list string)) : M json :=
  let normalized_id := _normalize_work_id work_id in
  let fields := or_list select DEFAULT_WORK_FIELDS in
  call {| req_method := "GET"; req_path := "/works/" ++ normalized_id;
          req_params := select_params fields |}.

(** The body shared by [get_citations] ([relation = "cites"]) and
    [get_references] ([relation = "cited_by"]). *)
Definition related_works (relation work_id : string) (page per_page : Z)
    (select : option (list string)) : M json :=
  let normalized_id := _normalize_work_id work_id in
  nid <- (if startswith normalized_id "W" then ret normalized_id
          else work <- get_work normalized_id (Some ["id"]) ;; short_id work) ;;
  let params := _build_params self (Some (relation ++ ":" ++ nid)) None
                  (Some "cited_by_count:desc") (Some page) (Some per_page)
                  (Some (or_list select DEFAULT_WORK_FIELDS)) None None in
  call {| req_method := "GET"; req_path := "/works"; req_params := params |}.

Definition get_citations (work_id : string) (page per_page : Z)
    (select : option (list string)) : M json :=
  related_works "cites" work_id page per_page select.

Definition get_references (work_id : string) (page per_page : Z)
    (select : option (list string)) : M json :=
  related_works "cited_by" work_id page per_page select.

Definition get_author (author_id : string) (select : option (list string)) : M json :=
  let normalized_id := _normalize_author_id author_id in
  call {| req_method := "GET"; req_path := "/authors/" ++ normalized_id;
          req_params := select_params (or_list select DEFAULT_AUTHOR_FIELDS) |}.

Definition get_institution (institution_id : string) (select : option (list string))
    : M json :=
  let normalized_id := _normalize_institution_id institution_id in
  call {| req_method := "GET"; req_path := "/institutions/" ++ normalized_id;
          req_params := select_params (or_list select DEFAULT_INSTITUTION_FIELDS) |}.

Definition get_source (source_id : string) (select : option (list string)) : M json :=
  let normalized_id := _normalize_source_id source_id in
  call {| req_method := "GET"; req_path := "/sources/" ++ normalized_id;
          req_params := select_params (or_list select DEFAULT_SOURCE_FIELDS) |}.

(** [search_authors], [search_institutions], [search_sources]: they differ
    in the path and the default fields. *)
Definition search_entities (path : string) (defaults : list string)
    (query : string) (filter_str sort : option string) (page per_page : Z)
    (select : option (list string)) (group_by : option string) : M json :=
  let params := _build_params self filter_str (Some query)
                  (Some (or_str sort "cited_by_count:desc")) (Some page) (Some per_page)
                  (Some (or_list select defaults)) group_by None in
  call {| req_method := "GET"; req_path := path; req_params := params |}.

Definition search_authors := search_entities "/authors" DEFAULT_AUTHOR_FIELDS.
Definition search_institutions := search_entities "/institutions" DEFAULT_INSTITUTION_FIELDS.
Definition search_sources := search_entities "/sources" DEFAULT_SOURCE_FIELDS.

(** The works of an author, institution or source: [normalize] and
    [lookup] are that entity's normaliser and [get_*], [letter] its native
    prefix and [filter_key] the filter on its id. *)
Definition entity_works (normalize : string -> string)
    (lookup : string -> option (list string) -> M json)
    (letter filter_key : string) (entity_id : string)
    (filter_str from_date to_date sort : option string) (page per_page : Z)
    (select : option (list string)) (group_by : option string) : M json :=
  let normalized_id := normalize entity_id in
  nid <- (if startswith normalized_id letter then ret normalized_id
          else entity <- lookup normalized_id (Some ["id"]) ;; short_id entity) ;;
  let extra_filters : dict (option string) := [(filter_key, Some nid)] in
  let extra_filters := match from_date with
    | Some d => if truthy from_date
                then dict_set "from_publication_date" (Some d) extra_filters
                else extra_filters
    | None => extra_filters end in
  let extra_filters := match to_date with
    | Some d => if truthy to_date
                then dict_set "to_publication_date" (Some d) extra_filters
                else extra_filters
    | None => extra_filters end in
  let params := _build_params self filter_str None
                  (Some (or_str sort "publication_date:desc")) (Some page) (Some per_page)
                  (Some (or_list select DEFAULT_WORK_FIELDS)) group_by
                  (Some extra_filters) in
  call {| req_method := "GET"; req_path := "/works"; req_params := params |}.

Definition get_author_works :=
  entity_works _normalize_author_id get_author "A" "authorships.author.id".
Definition get_institution_works :=
  entity_works _normalize_institution_id get_institution "I" "authorships.institutions.id".
Definition get_source_works :=
  entity_works _normalize_source_id get_source "S" "primary_location.source.id".

End Methods.

End Api.

(* ------------------------------------------------------------------------- *)
(** * Statements' vocabulary *)

Module SpecDefs.
Import Py Normalize Params Request.

(** The filter parameter as the spec describes it: the explicit filter
    string when non-empty, then ["key:value"] for every extra filter whose
    value is not null, in order, joined by commas; absent when there is no
    clause. *)
Definition spec_filter (filter_str : option string)
    (extra : dict (option string)) : option string :=
  let explicit := match filter_str with
                  | Some f => if String.eqb f "" then [] else [f]
                  | None => []
                  end in
  let rendered :=
    map (fun kv => fst kv ++ ":" ++ match snd kv with Some v => v | None => "" end)
        (filter (fun kv => match snd kv with Some _ => true | None => false end) extra) in
  match app explicit rendered with
  | [] => None
  | cs => Some (join "," cs)
  end.

(** Every normaliser starts with the same branch: an id with the entity's
    letter, or an OpenAlex URL, loses every occurrence of the URL. *)
Definition native_branch (N : string -> string) (c : ascii) : Prop :=
  forall x, startswith x (String c "") || startswith x OPENALEX_URL = true ->
            N x = replace x OPENALEX_URL "".



(** The client with the constructor's defaults. *)
Definition default_client : client :=
  {| email := None; max_retries := 3; max_retry_wait := 60 |}.


End SpecDefs.

Module ExtraDefs.
Import Py Params Request.

(** The [mailto] parameter a request of [self] should carry. *)
Definition mailto_of (self : client) : option pval :=
  match self.(email) with
  | Some e => if String.eqb e "" then None else Some (PStr e)
  | None => None
  end.

(** The backoff of a connection error at an attempt: [min(2^a, max_retry_wait)]. *)
Definition fault_wait (self : client) (a : Z) : Z := Z.min (2 ^ a) self.(max_retry_wait).

(** The trace of [_request] when every exchange fails to connect: exchange,
    notice and sleep at attempts [0 .. max_retries - 1], then the last
    exchange. *)
Definition fault_trace (self : client) : list event :=
  flat_map (fun i => [Exchange i; Report i (fault_wait self i); Sleep (fault_wait self i)])
           (map Z.of_nat (seq 0 (Z.to_nat self.(max_retries))))
  ++ [Exchange self.(max_retries)].

(** Every request of a list carries the client's [mailto]. *)
Definition carries_mailto (self : client) (rs : list request) : Prop :=
  Forall (fun r => dict_get "mailto" (req_params r) = mailto_of self) rs.

(** The filter clause an optional string contributes: [render v] for a
    non-empty [v], nothing otherwise. *)
Definition clause (o : option string) (render : string -> string) : list string :=
  match o with
  | Some v => if String.eqb v "" then [] else [render v]
  | None => []
  end.

End ExtraDefs.

(* ------------------------------------------------------------------------- *)
(** * Lemmas on the dict model *)

Module ParamsFacts.
Import Py Params.

Lemma dict_get_set {V} (k k' : string) (v : V) (d : dict V) :
  dict_get k (dict_set k' v d) = if String.eqb k k' then Some v else dict_get k d.
Proof.
  induction d as [|[k0 v0] d IH]; simpl.
  - reflexivity.
  - destruct (String.eqb k' k0) eqn:E1.
    + apply String.eqb_eq in E1; subst k0. simpl.
      destruct (String.eqb k k'); reflexivity.
    + simpl. rewrite IH.
      destruct (String.eqb k k') eqn:E2; [|reflexivity].
      apply String.eqb_eq in E2; subst k'.
      rewrite E1. reflexivity.
Qed.

(** Case analysis on the conditionals of [_build_params] that set keys other
    than the one looked up. *)
Ltac split_params :=
  repeat first
    [ rewrite dict_get_set; cbn [String.eqb Ascii.eqb Bool.eqb andb]
    | match goal with
      | |- context [match ?x with _ => _ end] =>
          lazymatch x with
          | dict_get _ _ => fail
          | _ => destruct x
          end
      end ].

Lemma truthy_some (g : string) : g <> "" -> truthy (Some g) = true.
Proof.
  intros H. simpl. destruct (String.eqb g "") eqn:E; [|reflexivity].
  apply String.eqb_eq in E. contradiction.
Qed.

Lemma in_group_sorts_spec (s : string) :
  in_group_sorts (Some s) = true <->
  In s ["key"; "count"; "count:asc"; "count:desc"; "key:asc"; "key:desc"].
Proof.
  unfold in_group_sorts, GROUP_SORTS. rewrite existsb_exists. split.
  - intros [x [Hin Heq]]. apply String.eqb_eq in Heq. subst x.
    simpl in *. tauto.
  - intros Hin. exists s. split; [simpl in *; tauto | apply String.eqb_refl].
Qed.

Lemma build_params_filter self fs q sort page pp sel g ef :
  dict_get "filter" (_build_params self fs q sort page pp sel g ef) =
  match filter_clauses fs ef with
  | [] => None
  | cs => Some (PStr (join "," cs))
  end.
Proof.
  unfold _build_params. cbv zeta.
  destruct (filter_clauses fs ef); split_params; reflexivity.
Qed.

Lemma build_params_search self fs q sort page pp sel g ef :
  q <> "" ->
  dict_get "search" (_build_params self fs (Some q) sort page pp sel g ef) =
  Some (PStr q).
Proof.
  intros Hq. unfold _build_params. cbv zeta. rewrite (truthy_some q Hq).
  split_params; reflexivity.
Qed.

Lemma flat_map_render (l : dict (option string)) :
  flat_map (fun kv => match snd kv with
                      | Some v => [fst kv ++ ":" ++ v]
                      | None => []
                      end) l =
  map (fun kv => fst kv ++ ":" ++ match snd kv with Some v => v | None => "" end)
      (filter (fun kv => match snd kv with Some _ => true | None => false end) l).
Proof.
  induction l as [|[k [v|]] l IH]; cbn [flat_map map filter app snd fst];
    [reflexivity | rewrite IH | exact IH].
  reflexivity.
Qed.

End ParamsFacts.

(* ------------------------------------------------------------------------- *)
(** * Query parameters: claims *)

Module ParamsClaims.
Import Py Params ParamsFacts SpecDefs.


(** C1: whenever [group_by] is a non-empty string, the parameters built by
    [_build_params] have no [select] key, whatever [select] was given. *)
Theorem group_by_suppresses_select self filter_str search sort page per_page
    select g extra_filters :
  g <> "" ->
  dict_get "select"
    (_build_params self filter_str search sort page per_page select (Some g)
                   extra_filters) = None.
Proof.
  intros Hg. unfold _build_params. cbv zeta. rewrite (truthy_some g Hg).
  split_params; reflexivity.
Qed.

(** C2: with a non-empty [group_by], a supplied sort among the six grouped
    sorts is kept as it is; any other sort, or none, becomes ["count:desc"]. *)
Theorem group_by_sort self filter_str search sort page per_page select g
    extra_filters :
  g <> "" ->
  let params := _build_params self filter_str search sort page per_page select
                              (Some g) extra_filters in
  (forall s, sort = Some s ->
     In s ["key"; "count"; "count:asc"; "count:desc"; "key:asc"; "key:desc"] ->
     dict_get "sort" params = Some (PStr s)) /\
  ((forall s, sort = Some s ->
     ~ In s ["key"; "count"; "count:asc"; "count:desc"; "key:asc"; "key:desc"]) ->
   dict_get "sort" params = Some (PStr "count:desc")).
Proof.
  intros Hg params. subst params. split.
  - intros s -> Hin. apply in_group_sorts_spec in Hin.
    unfold _build_params. cbv zeta. rewrite (truthy_some g Hg), Hin.
    split_params; reflexivity.
  - intros Hnot. unfold _build_params. cbv zeta. rewrite (truthy_some g Hg).
    destruct sort as [s|].
    + destruct (in_group_sorts (Some s)) eqn:E.
      * exfalso. apply (Hnot s eq_refl). apply in_group_sorts_spec. exact E.
      * split_params; reflexivity.
    + split_params; reflexivity.
Qed.

(** C6: the [filter] parameter is the explicit filter string (when
    non-empty) followed by ["key:value"] for each extra filter with a
    non-null value, in order and joined by commas; null values are left
    out and a repeated key gives one clause per occurrence.  A work search
    with [min_citations = 100], [open_access = True] and
    [from_date = "2023-01-01"] sends the three clauses joined by commas
    together with its search term. *)
Theorem filter_param self filter_str search sort page per_page select group_by
    extra q sort' page' per_page' select' group_by' :
  dict_get "filter"
    (_build_params self filter_str search sort page per_page select group_by
                   (Some extra)) =
  option_map PStr (spec_filter filter_str extra) /\
  (q <> "" ->
   let r := search_works self (Some q) None (Some "2023-01-01") None (Some 100%Z)
              (Some true) None sort' page' per_page' select' group_by' in
   dict_get "filter" r.(req_params) =
     Some (PStr "from_publication_date:2023-01-01,cited_by_count:>100,is_oa:true") /\
   dict_get "search" r.(req_params) = Some (PStr q)).
Proof.
  split.
  - rewrite build_params_filter. unfold spec_filter, filter_clauses.
    rewrite flat_map_render.
    destruct filter_str as [f|]; [destruct (String.eqb f "") eqn:E|];
      cbn [truthy negb app]; try rewrite E; cbn [negb app];
      destruct (map _ _); reflexivity.
  - intros Hq r. subst r. unfold search_works. cbv zeta.
    cbn [req_params truthy negb String.eqb Ascii.eqb Bool.eqb andb dict_set].
    split.
    + rewrite build_params_filter. reflexivity.
    + apply build_params_search. exact Hq.
Qed.

(** C10: [open_access = False] gives the same request as
    [open_access = None]: no [is_oa] clause is added. *)
Theorem open_access_false_as_none self query filter_str from_date to_date
    min_citations work_type sort page per_page select group_by :
  search_works self query filter_str from_date to_date min_citations (Some false)
               work_type sort page per_page select group_by =
  search_works self query filter_str from_date to_date min_citations None
               work_type sort page per_page select group_by.
Proof. reflexivity. Qed.

Lemma group_by_suppresses_select_witness :
  dict_get "select"
    (_build_params default_client None (Some "test") None None None
                   (Some ["id"; "title"]) (Some "publication_year") None) = None.
Proof.
  apply group_by_suppresses_select. discriminate.
Defined.

Lemma group_by_sort_witness :
  dict_get "sort" (_build_params default_client None None (Some "count:asc")
                     None None None (Some "type") None) = Some (PStr "count:asc") /\
  dict_get "sort" (_build_params default_client None None (Some "cited_by_count:desc")
                     None None None (Some "type") None) = Some (PStr "count:desc").
Proof.
  split.
  - apply (proj1 (group_by_sort default_client None None (Some "count:asc")
                    None None None "type" None ltac:(discriminate))).
    + reflexivity.
    + simpl. tauto.
  - apply (proj2 (group_by_sort default_client None None (Some "cited_by_count:desc")
                    None None None "type" None ltac:(discriminate))).
    intros s Hs. injection Hs as <-. simpl. intuition discriminate.
Defined.

Lemma filter_param_witness :
  dict_get "filter"
    (req_params (search_works default_client (Some "test") None (Some "2023-01-01")
                   None (Some 100%Z) (Some true) None None 1 25 None None)) =
  Some (PStr "from_publication_date:2023-01-01,cited_by_count:>100,is_oa:true").
Proof.
  exact (proj1 (proj2 (filter_param default_client None None None None None None None
                         [] "test" None 1 25 None None) ltac:(discriminate))).
Defined.

End ParamsClaims.

(* ------------------------------------------------------------------------- *)
(** * Lemmas on the string primitives *)

Module PyFacts.
Import Py.

Lemma prefix_app (p s : string) : String.prefix p (p ++ s) = true.
Proof.
  induction p as [|c p IH]; simpl.
  - destruct s; reflexivity.
  - destruct (ascii_dec c c) as [_|n]; [exact IH | contradiction].
Qed.

Lemma prefix_inv (p s : string) : String.prefix p s = true -> exists r, s = p ++ r.
Proof.
  revert s. induction p as [|c p IH]; intros s H.
  - exists s. reflexivity.
  - destruct s as [|c' s]; simpl in H; [discriminate|].
    destruct (ascii_dec c c') as [<-|]; [|discriminate].
    destruct (IH s H) as [r ->]. exists r. reflexivity.
Qed.

Lemma contains_eq (p s : string) :
  contains p s = String.prefix p s ||
                 match s with EmptyString => false | String _ s' => contains p s' end.
Proof. destruct s; reflexivity. Qed.

Lemma contains_prefix (p s : string) : contains p (p ++ s) = true.
Proof. rewrite contains_eq, prefix_app. reflexivity. Qed.

Lemma contains_app_r (p t s : string) :
  contains p s = true -> contains p (t ++ s) = true.
Proof.
  intros H. induction t as [|c t IH]; simpl; [exact H|].
  rewrite IH. apply orb_true_r.
Qed.

Lemma replace_go_skip (old new t s : string) :
  replace_go old new (t ++ s) (String.length t) = replace_go old new s 0.
Proof. induction t as [|c t IH]; simpl; [reflexivity | exact IH]. Qed.

(** Without an occurrence of [old], [s.replace(old, new)] is [s]. *)
Lemma replace_absent (old new s : string) :
  old <> "" -> contains old s = false -> replace s old new = s.
Proof.
  intros Hold. unfold replace. induction s as [|c s IH]; intros H; simpl in *.
  - destruct old; [contradiction | reflexivity].
  - apply orb_false_iff in H as [H1 H2]. rewrite H1, IH by exact H2.
    reflexivity.
Qed.

(** A leading occurrence of [old] is replaced, scanning goes on after it. *)
Lemma replace_lead (old new s : string) :
  old <> "" -> replace (old ++ s) old new = new ++ replace s old new.
Proof.
  intros Hold. unfold replace. destruct old as [|o rest]; [contradiction|].
  cbn [replace_go String.append].
  rewrite (prefix_app (String o rest) s
           : String.prefix (String o rest) (String o (rest ++ s)) = true).
  rewrite replace_go_skip. reflexivity.
Qed.

End PyFacts.

(* ------------------------------------------------------------------------- *)
(** * Identifier normalisation: lemmas and claims *)

Module NormalizeFacts.
Import Py PyFacts Normalize SpecDefs.

Lemma url_nonempty : OPENALEX_URL <> "".
Proof. discriminate. Qed.

Lemma strip_native (c : ascii) (s : string) :
  c <> "h"%char -> contains OPENALEX_URL s = false ->
  replace (String c s) OPENALEX_URL "" = String c s.
Proof.
  intros Hc Hs. apply replace_absent; [exact url_nonempty|].
  rewrite contains_eq, Hs, orb_false_r. unfold OPENALEX_URL. cbn [String.prefix].
  destruct (ascii_dec "h" c) as [E|]; [symmetry in E; contradiction | reflexivity].
Qed.

Lemma strip_url (c : ascii) (s : string) :
  c <> "h"%char -> contains OPENALEX_URL s = false ->
  replace (OPENALEX_URL ++ String c s) OPENALEX_URL "" = String c s.
Proof.
  intros Hc Hs. rewrite replace_lead by exact url_nonempty.
  apply strip_native; assumption.
Qed.


Lemma native_forms (N : string -> string) (c : ascii) (s : string) :
  native_branch N c -> c <> "h"%char -> contains OPENALEX_URL s = false ->
  forall x, x = String c s \/ x = OPENALEX_URL ++ String c s ->
  N x = String c s /\ N (N x) = N x.
Proof.
  intros HN Hc Hs x Hx.
  assert (Hfix : N (String c s) = String c s).
  { rewrite HN by (unfold startswith;
                   rewrite (prefix_app (String c "") s
                            : String.prefix (String c "") (String c s) = true);
                   reflexivity).
    apply strip_native; assumption. }
  assert (HN_x : N x = String c s).
  { destruct Hx as [-> | ->]; [exact Hfix|].
    rewrite HN by (unfold startswith; rewrite prefix_app; apply orb_true_r).
    apply strip_url; assumption. }
  rewrite HN_x, Hfix. split; reflexivity.
Qed.

Lemma work_native_branch : native_branch _normalize_work_id "W".
Proof. intros x H. unfold _normalize_work_id. rewrite H. reflexivity. Qed.
Lemma author_native_branch : native_branch _normalize_author_id "A".
Proof. intros x H. unfold _normalize_author_id. rewrite H. reflexivity. Qed.
Lemma institution_native_branch : native_branch _normalize_institution_id "I".
Proof. intros x H. unfold _normalize_institution_id. rewrite H. reflexivity. Qed.
Lemma source_native_branch : native_branch _normalize_source_id "S".
Proof. intros x H. unfold _normalize_source_id. rewrite H. reflexivity. Qed.

End NormalizeFacts.

Module NormalizeClaims.
Import Py PyFacts Normalize NormalizeFacts SpecDefs.

(** C5, as amended: for each entity kind with native letter [L] (W, A, I,
    S) and every [s] in which ["https://openalex.org/"] does not occur, the
    native id [L ++ s] and its URL ["https://openalex.org/" ++ L ++ s] both
    normalise to [L ++ s], and normalising again changes nothing. *)
Theorem native_ids_idempotent (s : string) :
  contains OPENALEX_URL s = false ->
  (forall x, x = String "W" s \/ x = OPENALEX_URL ++ String "W" s ->
     _normalize_work_id x = String "W" s /\
     _normalize_work_id (_normalize_work_id x) = _normalize_work_id x) /\
  (forall x, x = String "A" s \/ x = OPENALEX_URL ++ String "A" s ->
     _normalize_author_id x = String "A" s /\
     _normalize_author_id (_normalize_author_id x) = _normalize_author_id x) /\
  (forall x, x = String "I" s \/ x = OPENALEX_URL ++ String "I" s ->
     _normalize_institution_id x = String "I" s /\
     _normalize_institution_id (_normalize_institution_id x) =
       _normalize_institution_id x) /\
  (forall x, x = String "S" s \/ x = OPENALEX_URL ++ String "S" s ->
     _normalize_source_id x = String "S" s /\
     _normalize_source_id (_normalize_source_id x) = _normalize_source_id x).
Proof.
  intros Hs. split; [|split; [|split]]; intros x Hx.
  all: first
    [ apply (native_forms _ _ s work_native_branch); [discriminate | exact Hs | exact Hx]
    | apply (native_forms _ _ s author_native_branch); [discriminate | exact Hs | exact Hx]
    | apply (native_forms _ _ s institution_native_branch); [discriminate | exact Hs | exact Hx]
    | apply (native_forms _ _ s source_native_branch); [discriminate | exact Hs | exact Hx] ].
Qed.

Lemma native_ids_idempotent_witness :
  contains OPENALEX_URL "2741809807" = false /\
  _normalize_work_id (_normalize_work_id "https://openalex.org/W2741809807") =
    _normalize_work_id "https://openalex.org/W2741809807".
Proof.
  split; [reflexivity|].
  apply (proj1 (native_ids_idempotent "2741809807" eq_refl)
               "https://openalex.org/W2741809807").
  right. reflexivity.
Defined.

(** C5 fails as stated: a [W]-prefixed id in which removing the URL
    creates a new occurrence of it normalises differently the second time. *)
Lemma native_id_not_idempotent :
  let x := "Whttps://openalex.orghttps://openalex.org//" in
  startswith x "W" = true /\
  _normalize_work_id (_normalize_work_id x) <> _normalize_work_id x.
Proof. vm_compute. split; [reflexivity | intros H; discriminate H]. Qed.

(** C7: the four work-id examples. *)
Theorem work_id_examples :
  _normalize_work_id "10.1234/test" = "doi:10.1234/test" /\
  _normalize_work_id "doi:10.1234/test" = "doi:10.1234/test" /\
  _normalize_work_id "PMID:12345" = "pmid:12345" /\
  _normalize_work_id "https://openalex.org/W123" = "W123".
Proof. repeat split; reflexivity. Qed.





End NormalizeClaims.

(* ------------------------------------------------------------------------- *)
(** * The retry loop: lemmas *)

Module RequestFacts.
Import Py Params Request SpecDefs.

Lemma jitter_frac (b n : Z) (d : positive) :
  (0 <= b)%Z -> (0 <= n)%Z ->
  jitter b (n # d) = (b * (6 * Zpos d + 4 * n) / (8 * Zpos d))%Z.
Proof.
  intros Hb Hn. unfold jitter, Qtrunc. cbn [Qnum Qden Qmult Qplus inject_Z].
  rewrite !Pos2Z.inj_mul. rewrite Z.quot_div_nonneg by lia.
  f_equal; lia.
Qed.

(** With [0 <= base] and a draw in [0, 1), the jittered wait lies between
    [floor(0.75 * base)] and [floor(1.25 * base)]. *)
Lemma jitter_bounds (b : Z) (r : Q) :
  (0 <= b)%Z -> (0 <= r)%Q -> (r < 1)%Q ->
  (b * 3 / 4 <= jitter b r <= b * 5 / 4)%Z.
Proof.
  destruct r as [n d]. unfold Qle, Qlt. cbn [Qnum Qden]. intros Hb H0 H1.
  rewrite jitter_frac by lia. split.
  - apply Z.div_le_lower_bound; [lia|].
    pose proof (Z.mul_div_le (b * 3) 4 ltac:(lia)). nia.
  - assert (b * (6 * Zpos d + 4 * n) / (8 * Zpos d) < b * 5 / 4 + 1)%Z; [|lia].
    apply Z.div_lt_upper_bound; [lia|].
    pose proof (Z.mul_succ_div_gt (b * 5) 4 ltac:(lia)). unfold Z.succ in *. nia.
Qed.

Lemma jitter_nonneg (b : Z) (r : Q) : (0 <= b)%Z -> (0 <= r)%Q -> (0 <= jitter b r)%Z.
Proof.
  destruct r as [n d]. unfold Qle. cbn [Qnum Qden]. intros Hb H0.
  rewrite jitter_frac by lia. apply Z.div_pos; lia.
Qed.


Section Loop.

Variable py_int : string -> option Z.
Variable draw : Z -> Q.
Variable transport : Z -> exchange.
Variable self : client.

Lemma request_unfold :
  (0 <= max_retries self)%Z ->
  _request py_int draw transport self =
  loop py_int draw transport self (S (Z.to_nat (max_retries self))) 0.
Proof.
  intros H. unfold _request.
  replace (Z.to_nat (max_retries self + 1)) with (S (Z.to_nat (max_retries self)))
    by lia.
  reflexivity.
Qed.


Variable ra : Z -> option string.
Variable body : Z -> option json.
Hypothesis Hwait : (0 <= max_retry_wait self)%Z.
Hypothesis Hdraw : forall k, (0 <= draw k)%Q.
Hypothesis H429 : forall k, transport k = Response 429 (ra k) (body k).
Hypothesis Hparse : forall k s, ra k = Some s -> s <> "" ->
                    exists n, py_int s = Some n /\ (0 <= n)%Z.





End Loop.

End RequestFacts.

(* ------------------------------------------------------------------------- *)
(** * The retry loop: claims *)

Module RequestClaims.
Import Py Params Request RequestFacts SpecDefs.


(** C9: a 404 on the first exchange raises the "Entity not found" error
    with status 404 and the letter-prefix suggestion at once: the trace is
    that single exchange, with no sleep and no further exchange. *)
Theorem not_found_first_attempt py_int draw transport self retry_after body :
  (0 <= max_retries self)%Z ->
  transport 0%Z = Response 404 retry_after body ->
  _request py_int draw transport self =
  (Raise (APIError (JStr "Entity not found") (Some 404%Z)
     (Some "Check the ID format. OpenAlex IDs start with W (works), A (authors), I (institutions), S (sources), etc.")),
   [Exchange 0]).
Proof.
  intros Hmr Ht. rewrite request_unfold by exact Hmr. cbn [loop].
  unfold attempt_step. rewrite Ht. reflexivity.
Qed.

Lemma not_found_first_attempt_witness :
  _request dec_int (fun _ => 0%Q) (fun _ => Response 404 None None) default_client =
  (Raise (APIError (JStr "Entity not found") (Some 404%Z)
     (Some "Check the ID format. OpenAlex IDs start with W (works), A (authors), I (institutions), S (sources), etc.")),
   [Exchange 0]).
Proof.
  apply (not_found_first_attempt dec_int (fun _ => 0%Q)
           (fun _ => Response 404 None None) default_client None None).
  - cbn. lia.
  - reflexivity.
Defined.







End RequestClaims.

(* ------------------------------------------------------------------------- *)
(** * The retry loop: edge behaviour *)

Module RequestExtraFacts.
Import Py Params Request RequestFacts SpecDefs ExtraDefs.

Section Loop.

Variable py_int : string -> option Z.
Variable draw : Z -> Q.
Variable transport : Z -> exchange.
Variable self : client.

(** One pass never makes an exchange of its own; it sleeps exactly once
    when it continues and never when it ends the call, and it always ends
    the call on the last attempt. *)
Lemma step_shape (a : Z) :
  let '(evs, o) := attempt_step py_int draw transport self a in
  count_exchanges evs = 0%nat /\
  count_sleeps evs = (match o with None => 1 | Some _ => 0 end)%nat /\
  ((max_retries self <= a)%Z -> o <> None).
Proof.
  unfold attempt_step.
  destruct (transport a) as [st ra b|e].
  - destruct (st =? 200)%Z.
    { repeat split; discriminate. }
    destruct (st =? 429)%Z.
    + destruct (wait_429 py_int draw self a ra) as [w|].
      * destruct (a <? max_retries self)%Z eqn:Ea.
        -- unfold sleep. destruct (w <? 0)%Z.
           ++ repeat split; discriminate.
           ++ repeat split. intros H. apply Z.ltb_lt in Ea. lia.
        -- destruct ra as [s|]; [destruct (truthy (Some s)); [destruct (py_int s)|]|];
             repeat split; discriminate.
      * repeat split; discriminate.
    + destruct (st =? 404)%Z; [repeat split; discriminate|].
      destruct (st =? 400)%Z; repeat split; discriminate.
  - destruct (a <? max_retries self)%Z eqn:Ea.
    + unfold sleep. destruct (Z.min (2 ^ a) (max_retry_wait self) <? 0)%Z.
      * repeat split; discriminate.
      * repeat split. intros H. apply Z.ltb_lt in Ea. lia.
    + repeat split; discriminate.
Qed.

Lemma count_exchanges_app (l1 l2 : list event) :
  count_exchanges (l1 ++ l2) = (count_exchanges l1 + count_exchanges l2)%nat.
Proof. unfold count_exchanges. rewrite filter_app, length_app. reflexivity. Qed.

Lemma count_sleeps_app (l1 l2 : list event) :
  count_sleeps (l1 ++ l2) = (count_sleeps l1 + count_sleeps l2)%nat.
Proof. unfold count_sleeps. rewrite filter_app, length_app. reflexivity. Qed.

Lemma loop_shape (n : nat) (a : Z) :
  (a + Z.of_nat n = max_retries self + 1)%Z -> (1 <= n)%nat ->
  let '(r, evs) := loop py_int draw transport self n a in
  (1 <= count_exchanges evs <= n)%nat /\
  count_sleeps evs = pred (count_exchanges evs).
Proof.
  revert a. induction n as [|n IH]; intros a Hsum Hn; [lia|].
  cbn [loop]. pose proof (step_shape a) as Hs.
  destruct (attempt_step py_int draw transport self a) as [evs o].
  destruct Hs as [Hx [Hsl Hlast]]. destruct o as [r|].
  - unfold count_exchanges, count_sleeps in *. cbn [filter length].
    rewrite Hx, Hsl. lia.
  - destruct n as [|n'].
    { exfalso. apply Hlast; [lia | reflexivity]. }
    specialize (IH (a + 1)%Z ltac:(lia) ltac:(lia)).
    destruct (loop py_int draw transport self (S n') (a + 1)) as [r evs'].
    destruct IH as [Hb Hs'].
    change (Exchange a :: evs ++ evs')%list with ([Exchange a] ++ evs ++ evs')%list.
    rewrite !count_exchanges_app, !count_sleeps_app, Hx, Hsl.
    change (count_exchanges [Exchange a]) with 1%nat.
    change (count_sleeps [Exchange a]) with 0%nat. lia.
Qed.

(** A run of continuing passes followed by one that ends the call. *)
Lemma loop_until (k : Z) (r : result) (evs_k : list event) (n : nat) (a : Z) :
  (0 <= a <= k)%Z -> (k < a + Z.of_nat n)%Z ->
  (forall a', (a <= a' < k)%Z -> exists w,
     attempt_step py_int draw transport self a' = ([Report a' w; Sleep w], None)) ->
  attempt_step py_int draw transport self k = (evs_k, Some r) ->
  let '(r', evs) := loop py_int draw transport self n a in
  r' = r /\ count_exchanges evs = S (Z.to_nat (k - a)) /\
  count_sleeps evs = (Z.to_nat (k - a) + count_sleeps evs_k)%nat.
Proof.
  revert a. induction n as [|n IH]; intros a Ha Hn Hcont Hk; [lia|].
  cbn [loop]. destruct (Z.eq_dec a k) as [->|Hne].
  - rewrite Hk. unfold count_exchanges, count_sleeps. cbn [filter length].
    replace (k - k)%Z with 0%Z by lia. split; [reflexivity|].
    split; [|reflexivity]. pose proof (step_shape k) as Hs. rewrite Hk in Hs.
    destruct Hs as [Hx _]. unfold count_exchanges in Hx. rewrite Hx. reflexivity.
  - destruct (Hcont a ltac:(lia)) as [w Hw]. rewrite Hw.
    specialize (IH (a + 1)%Z ltac:(lia) ltac:(lia)
                  (fun a' H => Hcont a' ltac:(lia)) Hk).
    destruct (loop py_int draw transport self n (a + 1)) as [r' evs].
    destruct IH as [Hr [Hx Hs]]. split; [exact Hr|].
    change (Exchange a :: [Report a w; Sleep w] ++ evs)%list
      with ([Exchange a; Report a w; Sleep w] ++ evs)%list.
    rewrite count_exchanges_app, count_sleeps_app, Hx, Hs.
    change (count_exchanges [Exchange a; Report a w; Sleep w]) with 1%nat.
    change (count_sleeps [Exchange a; Report a w; Sleep w]) with 1%nat.
    split; lia.
Qed.

End Loop.

End RequestExtraFacts.

Module RequestExtra.
Import Py Params Request RequestFacts RequestExtraFacts SpecDefs ExtraDefs.

(** Whatever the transport answers, [_request] with [max_retries >= 0]
    makes between 1 and [max_retries + 1] exchanges, and it sleeps exactly
    once between two consecutive exchanges and never after the last one. *)
Theorem request_exchange_bound py_int draw transport self :
  (0 <= max_retries self)%Z ->
  let evs := snd (_request py_int draw transport self) in
  (1 <= count_exchanges evs <= Z.to_nat (max_retries self + 1))%nat /\
  count_sleeps evs = pred (count_exchanges evs).
Proof.
  intros Hmr. unfold _request.
  pose proof (loop_shape py_int draw transport self
                (Z.to_nat (max_retries self + 1)) 0 ltac:(lia) ltac:(lia)) as H.
  destruct (loop py_int draw transport self (Z.to_nat (max_retries self + 1)) 0).
  exact H.
Qed.

Lemma request_exchange_bound_witness :
  let evs := snd (_request dec_int (fun _ => 0%Q) (fun _ => RequestError "timeout")
                    default_client) in
  (1 <= count_exchanges evs <= 4)%nat /\ count_sleeps evs = pred (count_exchanges evs).
Proof. apply (request_exchange_bound _ _ _ default_client). cbn. lia. Defined.

(** A negative [max_retries] makes no exchange at all: [_request] raises
    ["Request failed after <max_retries> retries"] with no status code and
    no suggestion. *)
Theorem negative_retries_no_exchange py_int draw transport self :
  (max_retries self < 0)%Z ->
  _request py_int draw transport self =
  (Raise (APIError (JStr ("Request failed after " ++ str_of_Z (max_retries self)
                          ++ " retries")) None None), []).
Proof.
  intros H. unfold _request.
  replace (Z.to_nat (max_retries self + 1)) with O by lia. reflexivity.
Qed.

Lemma negative_retries_no_exchange_witness :
  _request dec_int (fun _ => 0%Q) (fun _ => Response 200 None (Some JNull))
    {| email := None; max_retries := -1; max_retry_wait := 60 |} =
  (Raise (APIError (JStr "Request failed after -1 retries") None None), []).
Proof.
  apply (negative_retries_no_exchange dec_int (fun _ => 0%Q)
           (fun _ => Response 200 None (Some JNull))
           {| email := None; max_retries := -1; max_retry_wait := 60 |}).
  cbn. lia.
Defined.

(** When every exchange fails to connect (and [max_retry_wait >= 0]),
    [_request] tries [max_retries + 1] times, sleeping
    [min(2^i, max_retry_wait)] seconds after attempt [i], without jitter,
    and raises ["Connection error: <e>"] for the last error [e], with no
    status code and the network suggestion. *)
Theorem connection_errors_exhaust py_int draw transport self (err : Z -> string) :
  (0 <= max_retries self)%Z -> (0 <= max_retry_wait self)%Z ->
  (forall a, transport a = RequestError (err a)) ->
  _request py_int draw transport self =
  (Raise (APIError (JStr ("Connection error: " ++ err (max_retries self))) None
                   (Some "Check your network connection")),
   fault_trace self).
Proof.
  intros Hmr Hw Ht. unfold _request, fault_trace.
  assert (Hgen : forall n a, (0 <= a)%Z -> (a + Z.of_nat n = max_retries self + 1)%Z ->
            (1 <= n)%nat ->
            loop py_int draw transport self n a =
            (Raise (APIError (JStr ("Connection error: " ++ err (max_retries self))) None
                             (Some "Check your network connection")),
             flat_map (fun i => [Exchange i; Report i (fault_wait self i);
                                 Sleep (fault_wait self i)])
                      (map Z.of_nat (seq (Z.to_nat a) (pred n)))
             ++ [Exchange (max_retries self)])%list).
  { induction n as [|n IH]; intros a Ha Hsum Hn; [lia|].
    cbn [loop]. unfold attempt_step. rewrite Ht.
    destruct (a <? max_retries self)%Z eqn:Ea.
    - apply Z.ltb_lt in Ea. unfold sleep.
      replace (Z.min (2 ^ a) (max_retry_wait self) <? 0)%Z with false
        by (symmetry; apply Z.ltb_ge; apply Z.min_glb; [apply Z.pow_nonneg|]; lia).
      rewrite (IH (a + 1)%Z ltac:(lia) ltac:(lia) ltac:(lia)).
      destruct n as [|n]; [lia|]. cbn [pred seq map flat_map].
      rewrite Z2Nat.id by lia.
      replace (S (Z.to_nat a)) with (Z.to_nat (a + 1)) by lia.
      reflexivity.
    - apply Z.ltb_ge in Ea. assert (a = max_retries self) by lia. subst a.
      assert (n = O) by lia. subst n. reflexivity. }
  rewrite (Hgen (Z.to_nat (max_retries self + 1)) 0%Z ltac:(lia) ltac:(lia) ltac:(lia)).
  replace (pred (Z.to_nat (max_retries self + 1))) with (Z.to_nat (max_retries self))
    by lia.
  reflexivity.
Qed.

Lemma connection_errors_exhaust_witness :
  _request dec_int (fun _ => 0%Q) (fun _ => RequestError "refused")
    {| email := None; max_retries := 3; max_retry_wait := 3 |} =
  (Raise (APIError (JStr "Connection error: refused") None
                   (Some "Check your network connection")),
   [Exchange 0; Report 0 1; Sleep 1; Exchange 1; Report 1 2; Sleep 2;
    Exchange 2; Report 2 3; Sleep 3; Exchange 3]).
Proof.
  apply (connection_errors_exhaust dec_int (fun _ => 0%Q) (fun _ => RequestError "refused")
           {| email := None; max_retries := 3; max_retry_wait := 3 |} (fun _ => "refused")).
  - cbn. lia.
  - cbn. lia.
  - intros a. reflexivity.
Defined.

(** After [k <= max_retries] attempts that each failed to connect or got a
    429 without [Retry-After] (draws non-negative, [max_retry_wait >= 0]),
    a 200 response ends the call with its decoded body ([JSONDecodeError]
    when it is not JSON), after [k + 1] exchanges and [k] sleeps. *)
Theorem success_after_retries py_int draw transport self (k : Z) ra body :
  (0 <= k <= max_retries self)%Z -> (0 <= max_retry_wait self)%Z ->
  (forall a, (0 <= draw a)%Q) ->
  (forall a, (0 <= a < k)%Z ->
     (exists e, transport a = RequestError e) \/
     (exists b, transport a = Response 429 None b)) ->
  transport k = Response 200 ra body ->
  let '(r, evs) := _request py_int draw transport self in
  r = match body with Some j => Ok j | None => Uncaught "JSONDecodeError" end /\
  count_exchanges evs = S (Z.to_nat k) /\ count_sleeps evs = Z.to_nat k.
Proof.
  intros Hk Hw Hd Hretry H200.
  rewrite request_unfold by lia.
  assert (Hmin : forall a, (0 <= a)%Z -> (0 <= Z.min (2 ^ a) (max_retry_wait self))%Z)
    by (intros a Ha; apply Z.min_glb; [apply Z.pow_nonneg|]; lia).
  pose proof (loop_until py_int draw transport self k
                (match body with Some j => Ok j | None => Uncaught "JSONDecodeError" end)
                [] (S (Z.to_nat (max_retries self))) 0 ltac:(lia) ltac:(lia)) as H.
  destruct (loop py_int draw transport self (S (Z.to_nat (max_retries self))) 0)
    as [r evs].
  destruct H as [Hr [Hx Hs]].
  - intros a' Ha'. assert (Hlt : (a' <? max_retries self)%Z = true) by (apply Z.ltb_lt; lia).
    unfold attempt_step.
    destruct (Hretry a' ltac:(lia)) as [[e He] | [b Hb]].
    + rewrite He, Hlt. exists (Z.min (2 ^ a') (max_retry_wait self)). unfold sleep.
      replace (Z.min (2 ^ a') (max_retry_wait self) <? 0)%Z with false
        by (symmetry; apply Z.ltb_ge; apply Hmin; lia).
      reflexivity.
    + rewrite Hb. cbn -[wait_429]. unfold wait_429.
      exists (jitter (Z.min (2 ^ a') (max_retry_wait self)) (draw a')).
      rewrite Hlt. unfold sleep.
      replace (jitter (Z.min (2 ^ a') (max_retry_wait self)) (draw a') <? 0)%Z
        with false by (symmetry; apply Z.ltb_ge; apply jitter_nonneg;
                       [apply Hmin; lia | apply Hd]).
      reflexivity.
  - unfold attempt_step. rewrite H200. reflexivity.
  - rewrite Z.sub_0_r in Hx, Hs. cbn in Hs. rewrite Nat.add_0_r in Hs.
    split; [exact Hr | split; assumption].
Qed.

Lemma success_after_retries_witness :
  let '(r, evs) := _request dec_int (fun _ => 1 # 2)
                     (fun a => if (a <? 1)%Z then RequestError "reset"
                               else if (a <? 2)%Z then Response 429 None None
                               else Response 200 None (Some (JStr "ok")))
                     default_client in
  r = Ok (JStr "ok") /\ count_exchanges evs = 3%nat /\ count_sleeps evs = 2%nat.
Proof.
  apply (success_after_retries dec_int (fun _ => 1 # 2)
           (fun a => if (a <? 1)%Z then RequestError "reset"
                     else if (a <? 2)%Z then Response 429 None None
                     else Response 200 None (Some (JStr "ok")))
           default_client 2 None (Some (JStr "ok"))).
  - cbn. lia.
  - cbn. lia.
  - intros a. unfold Qle; cbn; lia.
  - intros a Ha. destruct (a <? 1)%Z eqn:E1.
    + left. exists "reset". reflexivity.
    + right. exists None. destruct (a <? 2)%Z eqn:E2; [reflexivity|].
      apply Z.ltb_ge in E2. lia.
  - reflexivity.
Defined.

(** A first response with any status other than 200 and 429 raises at
    once, after that single exchange and no sleep, an [APIError] whose
    [status_code] is that status; outside 404 and 400 its message is
    ["API request failed: <status>"] with no suggestion. *)
Theorem other_status_raises_at_once py_int draw transport self st ra body :
  (0 <= max_retries self)%Z ->
  st <> 200%Z -> st <> 429%Z ->
  transport 0%Z = Response st ra body ->
  exists e, _request py_int draw transport self = (Raise e, [Exchange 0]) /\
            err_status_code e = Some st /\
            (st <> 404%Z -> st <> 400%Z ->
             e = APIError (JStr ("API request failed: " ++ str_of_Z st)) (Some st) None).
Proof.
  intros Hmr H200 H429 Ht. rewrite request_unfold by exact Hmr. cbn [loop].
  unfold attempt_step. rewrite Ht.
  replace (st =? 200)%Z with false by (symmetry; apply Z.eqb_neq; exact H200).
  replace (st =? 429)%Z with false by (symmetry; apply Z.eqb_neq; exact H429).
  destruct (st =? 404)%Z eqn:E404.
  { apply Z.eqb_eq in E404. subst st. eexists. split; [reflexivity|].
    split; [reflexivity | intros H; contradiction]. }
  destruct (st =? 400)%Z eqn:E400.
  { apply Z.eqb_eq in E400. subst st. eexists. split; [reflexivity|].
    split; [reflexivity | intros _ H; contradiction]. }
  eexists. split; [reflexivity|]. split; reflexivity.
Qed.

Lemma other_status_raises_at_once_witness :
  exists e, _request dec_int (fun _ => 0%Q) (fun _ => Response 503 None None)
              default_client = (Raise e, [Exchange 0]) /\
            err_status_code e = Some 503%Z /\
            (503 <> 404 -> 503 <> 400 ->
             e = APIError (JStr ("API request failed: " ++ str_of_Z 503)) (Some 503%Z) None)%Z.
Proof.
  apply (other_status_raises_at_once dec_int (fun _ => 0%Q)
           (fun _ => Response 503 None None) default_client 503 None None).
  - cbn. lia.
  - lia.
  - lia.
  - reflexivity.
Defined.

(** A 400 response raises at once with the body's ["message"] field as
    the message when the body is a JSON object that has one (whatever JSON
    value it holds), and ["Bad request"] when the body is not JSON, not an
    object, or has no such field. *)
Theorem bad_request_message py_int draw transport self ra body :
  (0 <= max_retries self)%Z ->
  transport 0%Z = Response 400 ra body ->
  _request py_int draw transport self =
  (Raise (APIError (match body with
                    | Some (JObj fs) => match assoc "message" fs with
                                        | Some m => m
                                        | None => JStr "Bad request"
                                        end
                    | _ => JStr "Bad request"
                    end) (Some 400%Z)
                   (Some "Check the query parameters and filter syntax")),
   [Exchange 0]).
Proof.
  intros Hmr Ht. rewrite request_unfold by exact Hmr. cbn [loop].
  unfold attempt_step. rewrite Ht. reflexivity.
Qed.

Lemma bad_request_message_witness :
  _request dec_int (fun _ => 0%Q)
    (fun _ => Response 400 None (Some (JObj [("error", JBool true);
                                             ("message", JStr "Invalid filter")])))
    default_client =
  (Raise (APIError (JStr "Invalid filter") (Some 400%Z)
                   (Some "Check the query parameters and filter syntax")),
   [Exchange 0]).
Proof.
  apply (bad_request_message dec_int (fun _ => 0%Q)
           (fun _ => Response 400 None (Some (JObj [("error", JBool true);
                                                    ("message", JStr "Invalid filter")])))
           default_client None
           (Some (JObj [("error", JBool true); ("message", JStr "Invalid filter")]))).
  - cbn. lia.
  - reflexivity.
Defined.

(** A 429 whose [Retry-After] header is non-empty but not an integer ends
    the call with the uncaught [ValueError] of [int()], even when retries
    are left: no sleep and no further exchange. *)
Theorem retry_after_not_int py_int draw transport self s body :
  (0 <= max_retries self)%Z ->
  s <> "" -> py_int s = None ->
  transport 0%Z = Response 429 (Some s) body ->
  _request py_int draw transport self = (Uncaught "ValueError", [Exchange 0]).
Proof.
  intros Hmr Hs Hp Ht. rewrite request_unfold by exact Hmr. cbn [loop].
  unfold attempt_step, wait_429. rewrite Ht. cbn [Z.eqb Pos.eqb truthy].
  replace (String.eqb s "") with false by (symmetry; apply String.eqb_neq; exact Hs).
  cbn [negb]. rewrite Hp. reflexivity.
Qed.

Lemma retry_after_not_int_witness :
  _request dec_int (fun _ => 0%Q) (fun _ => Response 429 (Some "1.5") None)
    default_client = (Uncaught "ValueError", [Exchange 0]).
Proof.
  apply (retry_after_not_int dec_int (fun _ => 0%Q)
           (fun _ => Response 429 (Some "1.5") None) default_client "1.5" None).
  - cbn. lia.
  - discriminate.
  - reflexivity.
  - reflexivity.
Defined.

(** The wait after a 429 with an integer [Retry-After: n >= 0], when
    retries are left, is [int(n * (0.75 + 0.5 r))], between
    [floor(0.75 n)] and [floor(1.25 n)] for a draw in [0, 1): the
    [max_retry_wait] cap does not apply to it. *)
Theorem retry_after_uncapped py_int draw transport self s n body :
  (0 < max_retries self)%Z ->
  s <> "" -> py_int s = Some n -> (0 <= n)%Z ->
  (0 <= draw 0%Z /\ draw 0%Z < 1)%Q ->
  transport 0%Z = Response 429 (Some s) body ->
  exists rest,
    snd (_request py_int draw transport self) =
    Exchange 0 :: Report 0 (jitter n (draw 0%Z)) :: Sleep (jitter n (draw 0%Z)) :: rest /\
    (n * 3 / 4 <= jitter n (draw 0%Z) <= n * 5 / 4)%Z.
Proof.
  intros Hmr Hs Hp Hn [H0 H1] Ht. rewrite request_unfold by lia. cbn [loop].
  assert (Hstep : attempt_step py_int draw transport self 0 =
                  ([Report 0 (jitter n (draw 0%Z)); Sleep (jitter n (draw 0%Z))], None)).
  { unfold attempt_step, wait_429. rewrite Ht. cbn [Z.eqb Pos.eqb truthy].
    replace (String.eqb s "") with false by (symmetry; apply String.eqb_neq; exact Hs).
    cbn [negb]. rewrite Hp.
    replace (0 <? max_retries self)%Z with true by (symmetry; apply Z.ltb_lt; exact Hmr).
    unfold sleep.
    replace (jitter n (draw 0%Z) <? 0)%Z with false
      by (symmetry; apply Z.ltb_ge; apply jitter_nonneg; assumption).
    reflexivity. }
  rewrite Hstep.
  destruct (loop py_int draw transport self (Z.to_nat (max_retries self)) (0 + 1))
    as [r evs].
  exists evs. split; [reflexivity|]. apply jitter_bounds; assumption.
Qed.

Lemma retry_after_uncapped_witness :
  exists rest,
    snd (_request dec_int (fun _ => 1 # 2) (fun _ => Response 429 (Some "100") None)
           default_client) =
    Exchange 0 :: Report 0 (jitter 100 (1 # 2)) :: Sleep (jitter 100 (1 # 2)) :: rest /\
    (100 * 3 / 4 <= jitter 100 (1 # 2) <= 100 * 5 / 4)%Z.
Proof.
  apply (retry_after_uncapped dec_int (fun _ => 1 # 2)
           (fun _ => Response 429 (Some "100") None) default_client "100" 100 None).
  - cbn. lia.
  - discriminate.
  - reflexivity.
  - lia.
  - unfold Qle, Qlt; cbn; lia.
  - reflexivity.
Defined.

(** With a negative [max_retry_wait], a connection error with retries
    left announces the negative wait and then [time.sleep] raises
    [ValueError]: the call ends after one exchange, without retrying. *)
Theorem negative_wait_sleep_fails py_int draw transport self e :
  (0 < max_retries self)%Z -> (max_retry_wait self < 0)%Z ->
  transport 0%Z = RequestError e ->
  _request py_int draw transport self =
  (Uncaught "ValueError", [Exchange 0; Report 0 (max_retry_wait self)]).
Proof.
  intros Hmr Hw Ht. rewrite request_unfold by lia. cbn [loop].
  unfold attempt_step. rewrite Ht.
  replace (0 <? max_retries self)%Z with true by (symmetry; apply Z.ltb_lt; exact Hmr).
  replace (Z.min (2 ^ 0) (max_retry_wait self)) with (max_retry_wait self)
    by (cbn; lia).
  unfold sleep.
  replace (max_retry_wait self <? 0)%Z with true by (symmetry; apply Z.ltb_lt; exact Hw).
  reflexivity.
Qed.

Lemma negative_wait_sleep_fails_witness :
  _request dec_int (fun _ => 0%Q) (fun _ => RequestError "reset")
    {| email := None; max_retries := 3; max_retry_wait := -5 |} =
  (Uncaught "ValueError", [Exchange 0; Report 0 (-5)]).
Proof.
  apply (negative_wait_sleep_fails dec_int (fun _ => 0%Q) (fun _ => RequestError "reset")
           {| email := None; max_retries := 3; max_retry_wait := -5 |} "reset").
  - cbn. lia.
  - cbn. lia.
  - reflexivity.
Defined.

End RequestExtra.

(* ------------------------------------------------------------------------- *)
(** * Error serialisation and parameter construction: further properties *)

Module ParamsExtra.
Import Py Params Request Api ParamsFacts SpecDefs ExtraDefs.

(** [APIError.to_dict] always has ["error"] first (the message) and
    ["documentation"] last (the docs URL); ["status_code"] appears, in
    between, exactly when the status code is present and non-zero, and
    ["suggestion"] exactly when the suggestion is present and non-empty. *)
Theorem to_dict_fields (e : api_error) :
  map fst (to_dict e) =
    (["error"] ++
    match err_status_code e with
    | Some c => if (c =? 0)%Z then [] else ["status_code"]
    | None => []
    end ++
    match err_suggestion e with
    | Some s => if String.eqb s "" then [] else ["suggestion"]
    | None => []
    end ++ ["documentation"])%list /\
  dict_get "error" (to_dict e) = Some (err_message e) /\
  dict_get "documentation" (to_dict e) = Some (JStr "https://docs.openalex.org/") /\
  dict_get "status_code" (to_dict e) =
    match err_status_code e with
    | Some c => if (c =? 0)%Z then None else Some (JNum c)
    | None => None
    end /\
  dict_get "suggestion" (to_dict e) =
    match err_suggestion e with
    | Some s => if String.eqb s "" then None else Some (JStr s)
    | None => None
    end.
Proof.
  unfold to_dict, truthy_int, truthy.
  destruct (err_status_code e) as [c|]; [destruct (c =? 0)%Z|];
    (destruct (err_suggestion e) as [s|]; [destruct (String.eqb s "")|]);
    cbn; repeat split.
Qed.

(** [page] and [per_page] are sent exactly when they are non-zero, and
    [mailto] exactly when the client has a non-empty email. *)
Theorem build_params_paging_mailto self fs q sort page per_page sel g ef :
  dict_get "page" (_build_params self fs q sort (Some page) (Some per_page) sel g ef) =
    (if (page =? 0)%Z then None else Some (PInt page)) /\
  dict_get "per_page" (_build_params self fs q sort (Some page) (Some per_page) sel g ef) =
    (if (per_page =? 0)%Z then None else Some (PInt per_page)) /\
  dict_get "mailto" (_build_params self fs q sort (Some page) (Some per_page) sel g ef) =
    mailto_of self.
Proof.
  unfold _build_params, mailto_of, truthy_int, truthy. cbv zeta.
  destruct (page =? 0)%Z, (per_page =? 0)%Z;
    (destruct (email self) as [e|]; [destruct (String.eqb e "")|]);
    cbn [negb]; split_params; repeat split; reflexivity.
Qed.

(** Without a (non-empty) [group_by] there is no [group_by] parameter, a
    non-empty [sort] is sent as it is and a non-empty [select] list is sent
    comma-joined; an empty or missing one is left out. *)
Theorem build_params_without_group_by self fs q sort page per_page sel g ef :
  truthy g = false ->
  dict_get "group_by" (_build_params self fs q sort page per_page sel g ef) = None /\
  dict_get "sort" (_build_params self fs q sort page per_page sel g ef) =
    match sort with
    | Some s => if String.eqb s "" then None else Some (PStr s)
    | None => None
    end /\
  dict_get "select" (_build_params self fs q sort page per_page sel g ef) =
    match sel with
    | Some (f :: fs') => Some (PStr (join "," (f :: fs')))
    | _ => None
    end.
Proof.
  intros Hg.
  destruct g as [g|];
    [cbn [truthy] in Hg; apply negb_false_iff, String.eqb_eq in Hg; subst g|];
    unfold _build_params, truthy_list, truthy; cbv zeta;
    (destruct sort as [so|]; [destruct (String.eqb so "")|]);
    (destruct sel as [[|f fs']|]); cbn [negb String.eqb];
    split_params; repeat split; reflexivity.
Qed.

Lemma build_params_without_group_by_witness :
  dict_get "group_by" (_build_params default_client None None (Some "")
                         (Some 1%Z) (Some 25%Z) (Some ["id"; "doi"]) (Some "") None) = None /\
  dict_get "sort" (_build_params default_client None None (Some "")
                     (Some 1%Z) (Some 25%Z) (Some ["id"; "doi"]) (Some "") None) = None /\
  dict_get "select" (_build_params default_client None None (Some "")
                       (Some 1%Z) (Some 25%Z) (Some ["id"; "doi"]) (Some "") None) =
    Some (PStr (join "," ["id"; "doi"])).
Proof.
  apply (build_params_without_group_by default_client None None (Some "")
           (Some 1%Z) (Some 25%Z) (Some ["id"; "doi"]) (Some "") None).
  reflexivity.
Defined.

End ParamsExtra.

(* ------------------------------------------------------------------------- *)
(** * Identifier normalisation: further properties *)

Module NormalizeExtraFacts.
Import Py PyFacts Normalize.

Lemma startswith_head_false (c a : ascii) (s p : string) :
  c <> a -> startswith (String c s) (String a p) = false.
Proof.
  intros H. unfold startswith. cbn [String.prefix].
  destruct (ascii_dec a c) as [E|]; [symmetry in E; contradiction | reflexivity].
Qed.

Lemma prefix_cons (a b : ascii) (p s : string) :
  String.prefix (String a p) (String b s) = true -> a = b /\ String.prefix p s = true.
Proof.
  cbn [String.prefix]. destruct (ascii_dec a b) as [E|]; [|discriminate].
  intros H. split; assumption.
Qed.

Lemma prefix_length (p s : string) :
  String.prefix p s = true -> (String.length p <= String.length s)%nat.
Proof.
  intros H. destruct (prefix_inv p s H) as [r ->]. clear H.
  induction p as [|c p IH]; cbn [String.length String.append]; lia.
Qed.

Lemma str_app_assoc (a b c : string) : a ++ (b ++ c) = (a ++ b) ++ c.
Proof. induction a as [|x a IH]; cbn [String.append]; [reflexivity | rewrite IH; reflexivity]. Qed.

(** [t + "/" + r] splits to [r] when [r] has no slash. *)
Lemma last_segment_after (t r : string) :
  contains "/" r = false -> last_segment (t ++ String "/" r) = r.
Proof.
  intros Hr. induction t as [|c t IH].
  - cbn [String.append last_segment]. rewrite Hr. reflexivity.
  - cbn [String.append last_segment].
    rewrite (contains_app_r "/" t (String "/" r)
               (contains_prefix "/" r : contains "/" (String "/" r) = true)).
    exact IH.
Qed.

End NormalizeExtraFacts.

Module NormalizeExtra.
Import Py PyFacts Normalize NormalizeExtraFacts.

(** A ROR URL [https://ror.org/<r>] with no further slash in [r] becomes
    [ror:<r>]; with a trailing slash the segment after it is empty and the
    result is the bare ["ror:"]. *)
Theorem institution_ror_url (r : string) :
  contains "/" r = false ->
  _normalize_institution_id ("https://ror.org/" ++ r) = "ror:" ++ r /\
  _normalize_institution_id ("https://ror.org/" ++ r ++ "/") = "ror:".
Proof.
  intros Hr.
  assert (Hror : forall x, contains "ror.org" ("https://ror.org/" ++ x) = true).
  { intros x. change ("https://ror.org/" ++ x) with ("https://" ++ ("ror.org" ++ ("/" ++ x))).
    apply contains_app_r, contains_prefix. }
  assert (Hgen : forall x, _normalize_institution_id ("https://ror.org/" ++ x) =
                           "ror:" ++ last_segment ("https://ror.org/" ++ x)).
  { intros x. unfold _normalize_institution_id.
    replace (startswith ("https://ror.org/" ++ x) "I") with false by reflexivity.
    replace (startswith ("https://ror.org/" ++ x) OPENALEX_URL) with false by reflexivity.
    rewrite Hror. reflexivity. }
  split; rewrite Hgen; f_equal.
  - change ("https://ror.org/" ++ r) with ("https://ror.org" ++ String "/" r).
    apply last_segment_after. exact Hr.
  - rewrite (str_app_assoc "https://ror.org/" r "/").
    rewrite (last_segment_after ("https://ror.org/" ++ r) "" eq_refl). reflexivity.
Qed.

Lemma institution_ror_url_witness :
  _normalize_institution_id ("https://ror.org/" ++ "042nb2s44") = "ror:" ++ "042nb2s44" /\
  _normalize_institution_id ("https://ror.org/" ++ "042nb2s44" ++ "/") = "ror:".
Proof. apply institution_ror_url. reflexivity. Defined.

(** A nine-character source id whose fifth character is ["-"] (an ISSN)
    and that does not start with ["S"] becomes [issn:<id>]. *)
Theorem source_issn (x : string) :
  String.length x = 9%nat -> String.get 4 x = Some "-"%char -> startswith x "S" = false ->
  _normalize_source_id x = "issn:" ++ x.
Proof.
  intros Hlen Hget HS. unfold _normalize_source_id. rewrite HS.
  replace (startswith x OPENALEX_URL) with false.
  2:{ symmetry. destruct (startswith x OPENALEX_URL) eqn:E; [|reflexivity].
      apply prefix_length in E. rewrite Hlen in E. cbn in E. lia. }
  rewrite Hlen, Hget. reflexivity.
Qed.

Lemma source_issn_witness :
  _normalize_source_id "0028-0836" = "issn:" ++ "0028-0836".
Proof. apply source_issn; reflexivity. Defined.

(** A source id that starts with ["issn:"] in any letter case is
    lowercased as a whole. *)
Theorem source_issn_prefix_lowercased (s : string) :
  startswith (lower s) "issn:" = true -> _normalize_source_id s = lower s.
Proof.
  intros H. pose proof H as H0. unfold startswith in H.
  destruct s as [|c1 s]; [discriminate|]. cbn [lower] in H.
  apply prefix_cons in H as [E1 H].
  destruct s as [|c2 s]; [discriminate|]. cbn [lower] in H.
  apply prefix_cons in H as [_ H].
  destruct s as [|c3 s]; [discriminate|]. cbn [lower] in H.
  apply prefix_cons in H as [_ H].
  destruct s as [|c4 s]; [discriminate|]. cbn [lower] in H.
  apply prefix_cons in H as [_ H].
  destruct s as [|c5 s]; [discriminate|]. cbn [lower] in H.
  apply prefix_cons in H as [E5 _].
  unfold _normalize_source_id, OPENALEX_URL.
  rewrite (startswith_head_false c1 "S")
    by (intros ->; vm_compute in E1; discriminate E1).
  rewrite (startswith_head_false c1 "h")
    by (intros ->; vm_compute in E1; discriminate E1).
  cbn [orb String.get].
  replace (Ascii.eqb c5 "-") with false.
  2:{ symmetry. apply Ascii.eqb_neq. intros ->. vm_compute in E5. discriminate E5. }
  rewrite andb_false_r, H0. reflexivity.
Qed.

Lemma source_issn_prefix_lowercased_witness :
  _normalize_source_id "ISSN:0028-0836" = "issn:0028-0836".
Proof. apply source_issn_prefix_lowercased. reflexivity. Defined.

(** A work id that starts with ["pmid:"] or ["mag:"] in any letter case
    is lowercased as a whole. *)
Theorem work_pmid_mag_lowercased (s : string) :
  startswith (lower s) "pmid:" || startswith (lower s) "mag:" = true ->
  _normalize_work_id s = lower s.
Proof.
  intros H. destruct s as [|c s]; [discriminate|].
  assert (Hc : lower_char c = "p"%char \/ lower_char c = "m"%char).
  { apply orb_true_iff in H as [H|H]; unfold startswith in H; cbn [lower] in H;
      apply prefix_cons in H as [E _]; [left | right]; symmetry; exact E. }
  assert (Hne : forall a, lower_char a <> "p"%char -> lower_char a <> "m"%char ->
                          c <> a).
  { intros a Hp Hm ->. destruct Hc; contradiction. }
  unfold _normalize_work_id, OPENALEX_URL.
  rewrite (startswith_head_false c "W") by (apply Hne; vm_compute; discriminate).
  rewrite (startswith_head_false c "h") by (apply Hne; vm_compute; discriminate).
  rewrite (startswith_head_false c "1") by (apply Hne; vm_compute; discriminate).
  rewrite (startswith_head_false c "d") by (apply Hne; vm_compute; discriminate).
  cbn [orb].
  destruct (startswith (lower (String c s)) "pmid:"); [reflexivity|].
  cbn [orb] in H. rewrite H. reflexivity.
Qed.

Lemma work_pmid_mag_lowercased_witness :
  _normalize_work_id "MAG:2741809807" = "mag:2741809807".
Proof. apply work_pmid_mag_lowercased. reflexivity. Defined.

(** A DOI given bare ([10.<d>]) or with the [doi:] prefix becomes
    [doi:<doi>], when the rest holds no further ["doi:"] and no DOI URL
    (every occurrence of both is removed otherwise). *)
Theorem work_doi_forms (d : string) :
  contains "doi:" d = false -> contains "https://doi.org/" d = false ->
  _normalize_work_id ("10." ++ d) = "doi:10." ++ d /\
  _normalize_work_id ("doi:" ++ d) = "doi:" ++ d.
Proof.
  intros Hd Hu. split.
  - unfold _normalize_work_id.
    replace (startswith ("10." ++ d) "W") with false by reflexivity.
    replace (startswith ("10." ++ d) OPENALEX_URL) with false by reflexivity.
    replace (startswith ("10." ++ d) "10.") with true
      by (symmetry; apply prefix_app).
    cbn [orb].
    rewrite (replace_absent "doi:" "" ("10." ++ d)) by
      (discriminate || (simpl; rewrite Hd; reflexivity)).
    rewrite (replace_absent "https://doi.org/" "" ("10." ++ d)) by
      (discriminate || (simpl; rewrite Hu; reflexivity)).
    reflexivity.
  - unfold _normalize_work_id.
    replace (startswith ("doi:" ++ d) "W") with false by reflexivity.
    replace (startswith ("doi:" ++ d) OPENALEX_URL) with false by reflexivity.
    replace (startswith ("doi:" ++ d) "10.") with false by reflexivity.
    replace (startswith ("doi:" ++ d) "doi:") with true
      by (symmetry; apply prefix_app).
    cbn [orb].
    rewrite (replace_lead "doi:" "" d) by discriminate.
    cbn [String.append].
    rewrite (replace_absent "doi:" "" d) by (discriminate || exact Hd).
    rewrite (replace_absent "https://doi.org/" "" d) by (discriminate || exact Hu).
    reflexivity.
Qed.

Lemma work_doi_forms_witness :
  _normalize_work_id ("10." ++ "1038/nature12373") = "doi:10." ++ "1038/nature12373" /\
  _normalize_work_id ("doi:" ++ "1038/nature12373") = "doi:" ++ "1038/nature12373".
Proof. apply work_doi_forms; reflexivity. Defined.

(** A DOI URL [https://doi.org/<d>] is not converted: when [d] does not
    mention ["openalex.org"], it is returned unchanged. *)
Theorem work_doi_url_unchanged (d : string) :
  contains "openalex.org" d = false ->
  _normalize_work_id ("https://doi.org/" ++ d) = "https://doi.org/" ++ d.
Proof.
  intros Hd. unfold _normalize_work_id.
  replace (startswith ("https://doi.org/" ++ d) "W") with false by reflexivity.
  replace (startswith ("https://doi.org/" ++ d) OPENALEX_URL) with false by reflexivity.
  replace (startswith ("https://doi.org/" ++ d) "10.") with false by reflexivity.
  replace (startswith ("https://doi.org/" ++ d) "doi:") with false by reflexivity.
  replace (startswith (lower ("https://doi.org/" ++ d)) "pmid:") with false
    by reflexivity.
  replace (startswith (lower ("https://doi.org/" ++ d)) "mag:") with false
    by reflexivity.
  replace (contains "openalex.org" ("https://doi.org/" ++ d)) with false
    by (simpl; rewrite Hd; reflexivity).
  reflexivity.
Qed.

Lemma work_doi_url_unchanged_witness :
  _normalize_work_id ("https://doi.org/" ++ "10.1038/nature12373") =
  "https://doi.org/" ++ "10.1038/nature12373".
Proof. apply work_doi_url_unchanged. reflexivity. Defined.

End NormalizeExtra.

(* ------------------------------------------------------------------------- *)
(** * Endpoint methods: lemmas *)

Module EndpointFacts.
Import Py PyFacts Normalize Params Request Api ParamsFacts ExtraDefs.

Lemma bind_ret {A B} (a : A) (k : A -> M B) : bind (ret a) k = k a.
Proof. unfold bind, ret. cbn [fst]. destruct (k a). reflexivity. Qed.

Lemma bind_val {A B} (m : M A) (k : A -> M B) a :
  fst m = Val a -> bind m k = (fst (k a), (snd m ++ snd (k a))%list).
Proof. intros H. unfold bind. rewrite H. destruct (k a). reflexivity. Qed.

Lemma bind_exn {A B} (m : M A) (k : A -> M B) e :
  fst m = Exn e -> bind m k = (Exn e, snd m).
Proof. intros H. unfold bind. rewrite H. reflexivity. Qed.

Lemma bind_crash {A B} (m : M A) (k : A -> M B) x :
  fst m = Crash x -> bind m k = (Crash x, snd m).
Proof. intros H. unfold bind. rewrite H. reflexivity. Qed.

Lemma carries_bind {A B} self (m : M A) (k : A -> M B) :
  carries_mailto self (snd m) -> (forall a, carries_mailto self (snd (k a))) ->
  carries_mailto self (snd (bind m k)).
Proof.
  intros Hm Hk. unfold bind. destruct (fst m) as [a|e|x]; [|exact Hm|exact Hm].
  specialize (Hk a). destruct (k a) as [o l]. cbn [snd] in *.
  apply Forall_app. split; assumption.
Qed.

Lemma carries_ret {A} self (a : A) : carries_mailto self (snd (ret a)).
Proof. constructor. Qed.

Lemma carries_short_id self j : carries_mailto self (snd (short_id j)).
Proof.
  destruct j as [| | | | |fs]; try constructor.
  cbn [short_id]. destruct (assoc "id" fs) as [[]|]; constructor.
Qed.

Lemma carries_call self answer r :
  dict_get "mailto" (req_params r) = mailto_of self ->
  carries_mailto self (snd (call answer r)).
Proof. intros H. constructor; [exact H | constructor]. Qed.

Lemma select_params_mailto self fields :
  dict_get "mailto" (select_params self fields) = mailto_of self.
Proof.
  unfold select_params, mailto_of, truthy.
  destruct (email self) as [e|]; [destruct (String.eqb e "")|]; reflexivity.
Qed.

Lemma build_params_mailto self fs q sort page pp sel g ef :
  dict_get "mailto" (_build_params self fs q sort page pp sel g ef) = mailto_of self.
Proof.
  unfold _build_params, mailto_of, truthy. cbv zeta.
  destruct (email self) as [e|]; [destruct (String.eqb e "")|]; cbn [negb];
    split_params; reflexivity.
Qed.

Lemma no_group_params self fs q s page pp sel g ef :
  truthy g = false -> s <> "" -> sel <> [] ->
  dict_get "sort" (_build_params self fs q (Some s) page pp (Some sel) g ef) =
    Some (PStr s) /\
  dict_get "select" (_build_params self fs q (Some s) page pp (Some sel) g ef) =
    Some (PStr (join "," sel)).
Proof.
  intros Hg Hs Hsel.
  destruct sel as [|f fs']; [contradiction|].
  destruct g as [g|];
    [cbn [truthy] in Hg; apply negb_false_iff, String.eqb_eq in Hg; subst g|];
    unfold _build_params, truthy_list, truthy; cbv zeta;
    (replace (String.eqb s "") with false
       by (symmetry; apply String.eqb_neq; exact Hs));
    cbn [negb String.eqb]; split_params; split; reflexivity.
Qed.

Lemma or_str_nonempty (o : option string) (d : string) : d <> "" -> or_str o d <> "".
Proof.
  intros Hd. destruct o as [s|]; cbn [or_str truthy]; [|exact Hd].
  destruct (String.eqb s "") eqn:E; cbn [negb]; [exact Hd|].
  apply String.eqb_neq. exact E.
Qed.

Lemma or_list_nonempty {A} (o : option (list A)) (d : list A) : d <> [] -> or_list o d <> [].
Proof. intros Hd. destruct o as [[|x xs]|]; cbn [or_list]; congruence. Qed.

Lemma search_shape answer self path defaults q fs sort page pp sel g :
  q <> "" -> truthy g = false ->
  exists params,
    snd (search_entities answer self path defaults q fs sort page pp sel g) =
      [{| req_method := "GET"; req_path := path; req_params := params |}] /\
    dict_get "search" params = Some (PStr q) /\
    (defaults <> [] ->
     dict_get "sort" params = Some (PStr (or_str sort "cited_by_count:desc")) /\
     dict_get "select" params = Some (PStr (join "," (or_list sel defaults)))).
Proof.
  intros Hq Hg. eexists. split; [reflexivity|]. split.
  - apply build_params_search. exact Hq.
  - intros Hd. apply no_group_params;
      [exact Hg | apply or_str_nonempty; discriminate | apply or_list_nonempty; exact Hd].
Qed.

(** The request [related_works] makes once the work id is known. *)
Lemma related_shape answer self relation work_id page pp sel :
  exists R : string -> request,
    related_works answer self relation work_id page pp sel =
      bind (if startswith (_normalize_work_id work_id) "W"
            then ret (_normalize_work_id work_id)
            else bind (get_work answer self (_normalize_work_id work_id) (Some ["id"]))
                      short_id)
           (fun nid => call answer (R nid)) /\
    forall nid,
      req_method (R nid) = "GET" /\ req_path (R nid) = "/works" /\
      dict_get "filter" (req_params (R nid)) = Some (PStr (relation ++ ":" ++ nid)) /\
      dict_get "sort" (req_params (R nid)) = Some (PStr "cited_by_count:desc") /\
      dict_get "select" (req_params (R nid)) =
        Some (PStr (join "," (or_list sel DEFAULT_WORK_FIELDS))).
Proof.
  eexists. split; [reflexivity|]. intros nid. cbn [req_method req_path req_params].
  split; [reflexivity|]. split; [reflexivity|]. split.
  - rewrite build_params_filter. unfold filter_clauses, truthy.
    destruct relation as [|c rel]; reflexivity.
  - apply no_group_params; [reflexivity | discriminate |].
    apply or_list_nonempty. discriminate.
Qed.

(** The request [entity_works] makes once the entity id is known. *)
Lemma entity_shape answer self normalize lookup letter key x fs fd td sort page pp sel g :
  String.eqb "from_publication_date" key = false ->
  String.eqb "to_publication_date" key = false ->
  exists R : string -> request,
    entity_works answer self normalize lookup letter key x fs fd td sort page pp sel g =
      bind (if startswith (normalize x) letter then ret (normalize x)
            else bind (lookup (normalize x) (Some ["id"])) short_id)
           (fun nid => call answer (R nid)) /\
    forall nid,
      req_method (R nid) = "GET" /\ req_path (R nid) = "/works" /\
      dict_get "filter" (req_params (R nid)) =
        Some (PStr (join "," (clause fs (fun f => f) ++ [key ++ ":" ++ nid] ++
                              clause fd (fun d => "from_publication_date:" ++ d) ++
                              clause td (fun d => "to_publication_date:" ++ d)))) /\
      (truthy g = false ->
       dict_get "sort" (req_params (R nid)) =
         Some (PStr (or_str sort "publication_date:desc"))).
Proof.
  intros Hfrom Hto. eexists. split; [reflexivity|]. intros nid.
  cbn [req_method req_path req_params].
  split; [reflexivity|]. split; [reflexivity|]. split.
  - assert (Htf : String.eqb "to_publication_date" "from_publication_date" = false)
      by reflexivity.
    rewrite build_params_filter. unfold filter_clauses, clause, truthy.
    destruct fs as [f|]; [destruct (String.eqb f "")|];
    (destruct fd as [d|]; [destruct (String.eqb d "")|]);
    (destruct td as [t|]; [destruct (String.eqb t "")|]);
    cbn [negb dict_set]; rewrite ?Hfrom, ?Hto, ?Htf;
    cbn [dict_set]; rewrite ?Hfrom, ?Hto, ?Htf;
    cbn [dict_set flat_map app fst snd]; reflexivity.
  - intros Hg. apply no_group_params;
      [exact Hg | apply or_str_nonempty; discriminate |
       apply or_list_nonempty; discriminate].
Qed.

(** A lookup that raises, or whose entity has no ["id"], ends the method
    with that single request; an OpenAlex URL as id gives the short id to
    the rest of the method. *)
Lemma lookup_raise (L : request) (answer : request -> result) (k : string -> M json) e :
  answer L = Raise e -> bind (bind (call answer L) short_id) k = (Exn e, [L]).
Proof. intros H. unfold call. rewrite H. reflexivity. Qed.

Lemma lookup_no_id (L : request) (answer : request -> result) (k : string -> M json) fs :
  answer L = Ok (JObj fs) -> assoc "id" fs = None ->
  bind (bind (call answer L) short_id) k = (Crash "KeyError", [L]).
Proof. intros H Hid. unfold call. rewrite H. cbn [bind fst snd short_id]. rewrite Hid. reflexivity. Qed.

Lemma lookup_ok (L : request) (answer : request -> result) (k : string -> M json) fs w :
  answer L = Ok (JObj fs) -> assoc "id" fs = Some (JStr (OPENALEX_URL ++ w)) ->
  contains OPENALEX_URL w = false ->
  bind (bind (call answer L) short_id) k = (fst (k w), L :: snd (k w)).
Proof.
  intros H Hid Hw. unfold call. rewrite H. cbn [bind fst snd short_id]. rewrite Hid.
  rewrite (replace_lead OPENALEX_URL "" w) by discriminate.
  rewrite (replace_absent OPENALEX_URL "" w) by (discriminate || exact Hw).
  cbn [String.append ret bind fst snd app]. destruct (k w). reflexivity.
Qed.

Lemma call_single (answer : request -> result) (r : request) :
  snd (call answer r) = [r].
Proof. reflexivity. Qed.

Lemma request_eta (r : request) :
  req_method r = "GET" -> req_path r = "/works" ->
  r = {| req_method := "GET"; req_path := "/works"; req_params := req_params r |}.
Proof. destruct r as [m p q]. cbn. intros -> ->. reflexivity. Qed.

Lemma related_native answer self relation work_id page pp sel :
  startswith (_normalize_work_id work_id) "W" = true ->
  exists params,
    snd (related_works answer self relation work_id page pp sel) =
      [{| req_method := "GET"; req_path := "/works"; req_params := params |}] /\
    dict_get "filter" params =
      Some (PStr (relation ++ ":" ++ _normalize_work_id work_id)) /\
    dict_get "sort" params = Some (PStr "cited_by_count:desc") /\
    dict_get "select" params = Some (PStr (join "," (or_list sel DEFAULT_WORK_FIELDS))).
Proof.
  intros Hn. destruct (related_shape answer self relation work_id page pp sel)
    as [R [E HR]].
  rewrite E, Hn, bind_ret, call_single.
  destruct (HR (_normalize_work_id work_id)) as [Hm [Hp Hrest]].
  exists (req_params (R (_normalize_work_id work_id))).
  split; [rewrite (request_eta _ Hm Hp) at 1; reflexivity | exact Hrest].
Qed.

Lemma related_lookup answer self relation work_id page pp sel :
  let L := {| req_method := "GET";
              req_path := "/works/" ++ _normalize_work_id (_normalize_work_id work_id);
              req_params := select_params self ["id"] |} in
  startswith (_normalize_work_id work_id) "W" = false ->
  (forall e, answer L = Raise e ->
     related_works answer self relation work_id page pp sel = (Exn e, [L])) /\
  (forall fs, answer L = Ok (JObj fs) -> assoc "id" fs = None ->
     related_works answer self relation work_id page pp sel = (Crash "KeyError", [L])) /\
  (forall fs w, answer L = Ok (JObj fs) -> assoc "id" fs = Some (JStr (OPENALEX_URL ++ w)) ->
     contains OPENALEX_URL w = false ->
     exists params,
       snd (related_works answer self relation work_id page pp sel) =
         [L; {| req_method := "GET"; req_path := "/works"; req_params := params |}] /\
       dict_get "filter" params = Some (PStr (relation ++ ":" ++ w))).
Proof.
  intros L Hn. destruct (related_shape answer self relation work_id page pp sel)
    as [R [E HR]].
  rewrite E, Hn.
  change (get_work answer self (_normalize_work_id work_id) (Some ["id"])) with (call answer L).
  split; [|split].
  - intros e H. apply lookup_raise. exact H.
  - intros fs H Hid. apply (lookup_no_id L answer _ fs H Hid).
  - intros fs w H Hid Hw. rewrite (lookup_ok L answer _ fs w H Hid Hw).
    cbn [snd]. rewrite call_single.
    destruct (HR w) as [Hm [Hp [Hf _]]].
    exists (req_params (R w)). split; [|exact Hf].
    rewrite (request_eta _ Hm Hp) at 1. reflexivity.
Qed.

Lemma entity_native answer self normalize lookup letter key x fs fd td sort page pp sel g :
  String.eqb "from_publication_date" key = false ->
  String.eqb "to_publication_date" key = false ->
  startswith (normalize x) letter = true ->
  exists params,
    snd (entity_works answer self normalize lookup letter key x fs fd td sort page pp sel g) =
      [{| req_method := "GET"; req_path := "/works"; req_params := params |}] /\
    dict_get "filter" params =
      Some (PStr (join "," (clause fs (fun f => f) ++ [key ++ ":" ++ normalize x] ++
                            clause fd (fun d => "from_publication_date:" ++ d) ++
                            clause td (fun d => "to_publication_date:" ++ d)))) /\
    (truthy g = false ->
     dict_get "sort" params = Some (PStr (or_str sort "publication_date:desc"))).
Proof.
  intros Hfrom Hto Hn.
  destruct (entity_shape answer self normalize lookup letter key x fs fd td sort page pp sel g
              Hfrom Hto) as [R [E HR]].
  rewrite E, Hn, bind_ret, call_single.
  destruct (HR (normalize x)) as [Hm [Hp Hrest]].
  exists (req_params (R (normalize x))).
  split; [rewrite (request_eta _ Hm Hp) at 1; reflexivity | exact Hrest].
Qed.

Lemma entity_lookup answer self normalize lookup letter key x fs fd td sort page pp sel g
    (L : request) :
  String.eqb "from_publication_date" key = false ->
  String.eqb "to_publication_date" key = false ->
  startswith (normalize x) letter = false ->
  lookup (normalize x) (Some ["id"]) = call answer L ->
  (forall e, answer L = Raise e ->
     entity_works answer self normalize lookup letter key x fs fd td sort page pp sel g =
     (Exn e, [L])) /\
  (forall ofs, answer L = Ok (JObj ofs) -> assoc "id" ofs = None ->
     entity_works answer self normalize lookup letter key x fs fd td sort page pp sel g =
     (Crash "KeyError", [L])) /\
  (forall ofs w, answer L = Ok (JObj ofs) ->
     assoc "id" ofs = Some (JStr (OPENALEX_URL ++ w)) -> contains OPENALEX_URL w = false ->
     exists params,
       snd (entity_works answer self normalize lookup letter key x fs fd td sort page pp sel g)
         = [L; {| req_method := "GET"; req_path := "/works"; req_params := params |}] /\
       dict_get "filter" params =
         Some (PStr (join "," (clause fs (fun f => f) ++ [key ++ ":" ++ w] ++
                               clause fd (fun d => "from_publication_date:" ++ d) ++
                               clause td (fun d => "to_publication_date:" ++ d))))).
Proof.
  intros Hfrom Hto Hn HL.
  destruct (entity_shape answer self normalize lookup letter key x fs fd td sort page pp sel g
              Hfrom Hto) as [R [E HR]].
  rewrite E, Hn, HL. split; [|split].
  - intros e H. apply lookup_raise. exact H.
  - intros ofs H Hid. apply (lookup_no_id L answer _ ofs H Hid).
  - intros ofs w H Hid Hw. rewrite (lookup_ok L answer _ ofs w H Hid Hw).
    cbn [snd]. rewrite call_single.
    destruct (HR w) as [Hm [Hp [Hf _]]].
    exists (req_params (R w)). split; [|exact Hf].
    rewrite (request_eta _ Hm Hp) at 1. reflexivity.
Qed.

End EndpointFacts.

(* ------------------------------------------------------------------------- *)
(** * Endpoint methods: properties *)

Module EndpointExtra.
Import Py Normalize Params Request Api SpecDefs ExtraDefs EndpointFacts.

(** Every request any endpoint method passes to [_request] (including the
    id lookups of [get_citations], [get_references] and the [*_works]
    methods) carries [mailto = email] when the client has a non-empty
    email, and no [mailto] otherwise. *)
Theorem requests_carry_mailto (answer : request -> result) (self : client) :
  (forall x sel, carries_mailto self (snd (get_work answer self x sel))) /\
  (forall x sel, carries_mailto self (snd (get_author answer self x sel))) /\
  (forall x sel, carries_mailto self (snd (get_institution answer self x sel))) /\
  (forall x sel, carries_mailto self (snd (get_source answer self x sel))) /\
  (forall x page pp sel,
     carries_mailto self (snd (get_citations answer self x page pp sel))) /\
  (forall x page pp sel,
     carries_mailto self (snd (get_references answer self x page pp sel))) /\
  (forall q fs sort page pp sel g,
     carries_mailto self (snd (search_authors answer self q fs sort page pp sel g))) /\
  (forall q fs sort page pp sel g,
     carries_mailto self (snd (search_institutions answer self q fs sort page pp sel g))) /\
  (forall q fs sort page pp sel g,
     carries_mailto self (snd (search_sources answer self q fs sort page pp sel g))) /\
  (forall x fs fd td sort page pp sel g,
     carries_mailto self
       (snd (get_author_works answer self x fs fd td sort page pp sel g))) /\
  (forall x fs fd td sort page pp sel g,
     carries_mailto self
       (snd (get_institution_works answer self x fs fd td sort page pp sel g))) /\
  (forall x fs fd td sort page pp sel g,
     carries_mailto self
       (snd (get_source_works answer self x fs fd td sort page pp sel g))) /\
  (forall q fs fd td mc oa wt sort page pp sel g,
     carries_mailto self [search_works self q fs fd td mc oa wt sort page pp sel g]).
Proof.
  assert (Hcall_sel : forall path fields,
            carries_mailto self (snd (call answer {| req_method := "GET"; req_path := path;
                                                     req_params := select_params self fields |})))
    by (intros; apply carries_call, select_params_mailto).
  assert (Hcall_bp : forall path fs q sort page pp sel g ef,
            carries_mailto self (snd (call answer {| req_method := "GET"; req_path := path;
               req_params := _build_params self fs q sort page pp sel g ef |})))
    by (intros; apply carries_call, build_params_mailto).
  assert (Hrel : forall rel x page pp sel,
            carries_mailto self (snd (related_works answer self rel x page pp sel))).
  { intros. unfold related_works. apply carries_bind; [|intros; apply Hcall_bp].
    destruct (startswith _ "W"); [apply carries_ret|].
    apply carries_bind; [apply Hcall_sel | intros; apply carries_short_id]. }
  assert (Hent : forall normalize lookup letter key x fs fd td sort page pp sel g,
            (forall y s, carries_mailto self (snd (lookup y s))) ->
            carries_mailto self (snd (entity_works answer self normalize lookup letter key
                                        x fs fd td sort page pp sel g))).
  { intros normalize lookup letter key x fs fd td sort page pp sel g Hl.
    unfold entity_works. apply carries_bind; [|intros; apply Hcall_bp].
    destruct (startswith _ letter); [apply carries_ret|].
    apply carries_bind; [apply Hl | intros; apply carries_short_id]. }
  repeat split; intros;
    try solve [apply Hcall_sel | apply Hrel | apply Hcall_bp
              | apply Hent; intros; apply Hcall_sel].
Qed.

(** [search_authors], [search_institutions] and [search_sources] make one
    request, to [/authors], [/institutions] or [/sources]; a non-empty
    query is sent as [search], and without [group_by] the sort defaults to
    ["cited_by_count:desc"] and the fields to the entity's default list. *)
Theorem search_entities_params answer self q fs sort page pp sel g :
  q <> "" -> truthy g = false ->
  (exists params,
     snd (search_authors answer self q fs sort page pp sel g) =
       [{| req_method := "GET"; req_path := "/authors"; req_params := params |}] /\
     dict_get "search" params = Some (PStr q) /\
     dict_get "sort" params = Some (PStr (or_str sort "cited_by_count:desc")) /\
     dict_get "select" params = Some (PStr (join "," (or_list sel DEFAULT_AUTHOR_FIELDS)))) /\
  (exists params,
     snd (search_institutions answer self q fs sort page pp sel g) =
       [{| req_method := "GET"; req_path := "/institutions"; req_params := params |}] /\
     dict_get "search" params = Some (PStr q) /\
     dict_get "sort" params = Some (PStr (or_str sort "cited_by_count:desc")) /\
     dict_get "select" params =
       Some (PStr (join "," (or_list sel DEFAULT_INSTITUTION_FIELDS)))) /\
  (exists params,
     snd (search_sources answer self q fs sort page pp sel g) =
       [{| req_method := "GET"; req_path := "/sources"; req_params := params |}] /\
     dict_get "search" params = Some (PStr q) /\
     dict_get "sort" params = Some (PStr (or_str sort "cited_by_count:desc")) /\
     dict_get "select" params = Some (PStr (join "," (or_list sel DEFAULT_SOURCE_FIELDS)))).
Proof.
  intros Hq Hg.
  assert (Hgen : forall path defaults, defaults <> [] ->
            exists params,
              snd (search_entities answer self path defaults q fs sort page pp sel g) =
                [{| req_method := "GET"; req_path := path; req_params := params |}] /\
              dict_get "search" params = Some (PStr q) /\
              dict_get "sort" params = Some (PStr (or_str sort "cited_by_count:desc")) /\
              dict_get "select" params = Some (PStr (join "," (or_list sel defaults)))).
  { intros path defaults Hd.
    destruct (search_shape answer self path defaults q fs sort page pp sel g Hq Hg)
      as [params [E [Hs Hsel]]].
    exists params. split; [exact E | split; [exact Hs | apply Hsel; exact Hd]]. }
  split; [|split]; apply Hgen; discriminate.
Qed.

Lemma search_entities_params_witness :
  exists params,
    snd (search_authors (fun _ => Ok JNull) default_client "einstein" None None 1 25 None None)
    = [{| req_method := "GET"; req_path := "/authors"; req_params := params |}] /\
    dict_get "search" params = Some (PStr "einstein") /\
    dict_get "sort" params = Some (PStr (or_str None "cited_by_count:desc")) /\
    dict_get "select" params = Some (PStr (join "," (or_list None DEFAULT_AUTHOR_FIELDS))).
Proof.
  apply (search_entities_params (fun _ => Ok JNull) default_client "einstein" None None 1 25
           None None); [discriminate | reflexivity].
Defined.

(** [get_citations] and [get_references] on an id that normalises to a
    [W] id make a single request, to [/works], filtered by
    [cites:<id>] or [cited_by:<id>], sorted by ["cited_by_count:desc"],
    with the requested fields or the default work fields. *)
Theorem citations_native_single_request answer self work_id page per_page select :
  startswith (_normalize_work_id work_id) "W" = true ->
  (exists params,
     snd (get_citations answer self work_id page per_page select) =
       [{| req_method := "GET"; req_path := "/works"; req_params := params |}] /\
     dict_get "filter" params = Some (PStr ("cites:" ++ _normalize_work_id work_id)) /\
     dict_get "sort" params = Some (PStr "cited_by_count:desc") /\
     dict_get "select" params = Some (PStr (join "," (or_list select DEFAULT_WORK_FIELDS)))) /\
  (exists params,
     snd (get_references answer self work_id page per_page select) =
       [{| req_method := "GET"; req_path := "/works"; req_params := params |}] /\
     dict_get "filter" params = Some (PStr ("cited_by:" ++ _normalize_work_id work_id)) /\
     dict_get "sort" params = Some (PStr "cited_by_count:desc") /\
     dict_get "select" params = Some (PStr (join "," (or_list select DEFAULT_WORK_FIELDS)))).
Proof.
  intros Hn. split; [apply (related_native _ _ "cites") | apply (related_native _ _ "cited_by")];
    exact Hn.
Qed.

Lemma citations_native_single_request_witness :
  exists params,
    snd (get_citations (fun _ => Ok JNull) default_client "https://openalex.org/W2741809807"
           1 25 None) =
      [{| req_method := "GET"; req_path := "/works"; req_params := params |}] /\
    dict_get "filter" params =
      Some (PStr ("cites:" ++ _normalize_work_id "https://openalex.org/W2741809807")) /\
    dict_get "sort" params = Some (PStr "cited_by_count:desc") /\
    dict_get "select" params = Some (PStr (join "," (or_list None DEFAULT_WORK_FIELDS))).
Proof.
  apply (citations_native_single_request (fun _ => Ok JNull) default_client
           "https://openalex.org/W2741809807" 1 25 None).
  reflexivity.
Defined.

(** On any other id, [get_citations] and [get_references] first look the
    work up ([GET /works/<id>] with [select=id]). If the lookup raises,
    that error propagates and no listing request is made. If the entity has
    no ["id"], [KeyError] propagates. If its id is an OpenAlex URL, the
    listing request filters on the short id. *)
Theorem citations_lookup answer self work_id page per_page select :
  let L := {| req_method := "GET";
              req_path := "/works/" ++ _normalize_work_id (_normalize_work_id work_id);
              req_params := select_params self ["id"] |} in
  startswith (_normalize_work_id work_id) "W" = false ->
  (forall e, answer L = Raise e ->
     get_citations answer self work_id page per_page select = (Exn e, [L]) /\
     get_references answer self work_id page per_page select = (Exn e, [L])) /\
  (forall fs, answer L = Ok (JObj fs) -> assoc "id" fs = None ->
     get_citations answer self work_id page per_page select = (Crash "KeyError", [L]) /\
     get_references answer self work_id page per_page select = (Crash "KeyError", [L])) /\
  (forall fs w, answer L = Ok (JObj fs) -> assoc "id" fs = Some (JStr (OPENALEX_URL ++ w)) ->
     contains OPENALEX_URL w = false ->
     (exists params,
        snd (get_citations answer self work_id page per_page select) =
          [L; {| req_method := "GET"; req_path := "/works"; req_params := params |}] /\
        dict_get "filter" params = Some (PStr ("cites:" ++ w))) /\
     (exists params,
        snd (get_references answer self work_id page per_page select) =
          [L; {| req_method := "GET"; req_path := "/works"; req_params := params |}] /\
        dict_get "filter" params = Some (PStr ("cited_by:" ++ w)))).
Proof.
  intros L Hn.
  destruct (related_lookup answer self "cites" work_id page per_page select Hn)
    as [C1 [C2 C3]].
  destruct (related_lookup answer self "cited_by" work_id page per_page select Hn)
    as [R1 [R2 R3]].
  unfold get_citations, get_references. split; [|split].
  - intros e H. split; [apply C1 | apply R1]; exact H.
  - intros fs H Hid. split; [apply (C2 fs) | apply (R2 fs)]; assumption.
  - intros fs w H Hid Hw. split; [apply (C3 fs w) | apply (R3 fs w)]; assumption.
Qed.

Lemma citations_lookup_witness :
  let L := {| req_method := "GET";
              req_path := "/works/" ++ _normalize_work_id (_normalize_work_id "10.1038/nphys1170");
              req_params := select_params default_client ["id"] |} in
  get_citations (fun _ => Raise (APIError (JStr "Entity not found") (Some 404%Z) None))
    default_client "10.1038/nphys1170" 1 25 None =
  (Exn (APIError (JStr "Entity not found") (Some 404%Z) None), [L]).
Proof.
  intros L.
  apply (proj1 (proj1 (citations_lookup
                         (fun _ => Raise (APIError (JStr "Entity not found") (Some 404%Z) None))
                         default_client "10.1038/nphys1170" 1 25 None eq_refl)
                  (APIError (JStr "Entity not found") (Some 404%Z) None) eq_refl)).
Defined.

(** [get_author_works], [get_institution_works] and [get_source_works] on
    an id already native ([A], [I] or [S] after normalisation) make a
    single request, to [/works]. Its filter lists the explicit filter
    string, then the entity clause ([authorships.author.id],
    [authorships.institutions.id] or [primary_location.source.id]), then
    the non-empty publication-date bounds, comma-joined. Without
    [group_by], its sort defaults to ["publication_date:desc"]. *)
Theorem entity_works_native_single_request answer self x fs fd td sort page pp sel g :
  (startswith (_normalize_author_id x) "A" = true ->
   exists params,
     snd (get_author_works answer self x fs fd td sort page pp sel g) =
       [{| req_method := "GET"; req_path := "/works"; req_params := params |}] /\
     dict_get "filter" params =
       Some (PStr (join "," (clause fs (fun f => f) ++
                             ["authorships.author.id" ++ ":" ++ _normalize_author_id x] ++
                             clause fd (fun d => "from_publication_date:" ++ d) ++
                             clause td (fun d => "to_publication_date:" ++ d)))) /\
     (truthy g = false ->
      dict_get "sort" params = Some (PStr (or_str sort "publication_date:desc")))) /\
  (startswith (_normalize_institution_id x) "I" = true ->
   exists params,
     snd (get_institution_works answer self x fs fd td sort page pp sel g) =
       [{| req_method := "GET"; req_path := "/works"; req_params := params |}] /\
     dict_get "filter" params =
       Some (PStr (join "," (clause fs (fun f => f) ++
                             ["authorships.institutions.id" ++ ":" ++
                              _normalize_institution_id x] ++
                             clause fd (fun d => "from_publication_date:" ++ d) ++
                             clause td (fun d => "to_publication_date:" ++ d)))) /\
     (truthy g = false ->
      dict_get "sort" params = Some (PStr (or_str sort "publication_date:desc")))) /\
  (startswith (_normalize_source_id x) "S" = true ->
   exists params,
     snd (get_source_works answer self x fs fd td sort page pp sel g) =
       [{| req_method := "GET"; req_path := "/works"; req_params := params |}] /\
     dict_get "filter" params =
       Some (PStr (join "," (clause fs (fun f => f) ++
                             ["primary_location.source.id" ++ ":" ++ _normalize_source_id x] ++
                             clause fd (fun d => "from_publication_date:" ++ d) ++
                             clause td (fun d => "to_publication_date:" ++ d)))) /\
     (truthy g = false ->
      dict_get "sort" params = Some (PStr (or_str sort "publication_date:desc")))).
Proof.
  split; [|split]; intros Hn; apply entity_native; solve [reflexivity | exact Hn].
Qed.

Lemma entity_works_native_single_request_witness :
  exists params,
    snd (get_author_works (fun _ => Ok JNull) default_client "A5023888391"
           (Some "type:article") (Some "2020-01-01") None None 1 25 None None) =
      [{| req_method := "GET"; req_path := "/works"; req_params := params |}] /\
    dict_get "filter" params =
      Some (PStr (join "," (clause (Some "type:article") (fun f => f) ++
                            ["authorships.author.id" ++ ":" ++ _normalize_author_id "A5023888391"] ++
                            clause (Some "2020-01-01") (fun d => "from_publication_date:" ++ d) ++
                            clause None (fun d => "to_publication_date:" ++ d)))) /\
    (truthy None = false ->
     dict_get "sort" params = Some (PStr (or_str None "publication_date:desc"))).
Proof.
  apply (proj1 (entity_works_native_single_request (fun _ => Ok JNull) default_client
                  "A5023888391" (Some "type:article") (Some "2020-01-01") None None 1 25
                  None None)).
  reflexivity.
Defined.

(** On a non-native id, the [*_works] methods first look the entity up
    ([GET /authors/<id>], [/institutions/<id>] or [/sources/<id>] with
    [select=id]): a raised lookup error propagates with no listing
    request; otherwise the listing filter carries the short OpenAlex id of
    the entity that was found. *)
Theorem entity_works_lookup answer self x fs fd td sort page pp sel g :
  (let L := {| req_method := "GET";
               req_path := "/authors/" ++ _normalize_author_id (_normalize_author_id x);
               req_params := select_params self ["id"] |} in
   startswith (_normalize_author_id x) "A" = false ->
   (forall e, answer L = Raise e ->
      get_author_works answer self x fs fd td sort page pp sel g = (Exn e, [L])) /\
   (forall ofs w, answer L = Ok (JObj ofs) ->
      assoc "id" ofs = Some (JStr (OPENALEX_URL ++ w)) -> contains OPENALEX_URL w = false ->
      exists params,
        snd (get_author_works answer self x fs fd td sort page pp sel g) =
          [L; {| req_method := "GET"; req_path := "/works"; req_params := params |}] /\
        dict_get "filter" params =
          Some (PStr (join "," (clause fs (fun f => f) ++
                                ["authorships.author.id" ++ ":" ++ w] ++
                                clause fd (fun d => "from_publication_date:" ++ d) ++
                                clause td (fun d => "to_publication_date:" ++ d)))))) /\
  (let L := {| req_method := "GET";
               req_path := "/institutions/" ++
                           _normalize_institution_id (_normalize_institution_id x);
               req_params := select_params self ["id"] |} in
   startswith (_normalize_institution_id x) "I" = false ->
   (forall e, answer L = Raise e ->
      get_institution_works answer self x fs fd td sort page pp sel g = (Exn e, [L])) /\
   (forall ofs w, answer L = Ok (JObj ofs) ->
      assoc "id" ofs = Some (JStr (OPENALEX_URL ++ w)) -> contains OPENALEX_URL w = false ->
      exists params,
        snd (get_institution_works answer self x fs fd td sort page pp sel g) =
          [L; {| req_method := "GET"; req_path := "/works"; req_params := params |}] /\
        dict_get "filter" params =
          Some (PStr (join "," (clause fs (fun f => f) ++
                                ["authorships.institutions.id" ++ ":" ++ w] ++
                                clause fd (fun d => "from_publication_date:" ++ d) ++
                                clause td (fun d => "to_publication_date:" ++ d)))))) /\
  (let L := {| req_method := "GET";
               req_path := "/sources/" ++ _normalize_source_id (_normalize_source_id x);
               req_params := select_params self ["id"] |} in
   startswith (_normalize_source_id x) "S" = false ->
   (forall e, answer L = Raise e ->
      get_source_works answer self x fs fd td sort page pp sel g = (Exn e, [L])) /\
   (forall ofs w, answer L = Ok (JObj ofs) ->
      assoc "id" ofs = Some (JStr (OPENALEX_URL ++ w)) -> contains OPENALEX_URL w = false ->
      exists params,
        snd (get_source_works answer self x fs fd td sort page pp sel g) =
          [L; {| req_method := "GET"; req_path := "/works"; req_params := params |}] /\
        dict_get "filter" params =
          Some (PStr (join "," (clause fs (fun f => f) ++
                                ["primary_location.source.id" ++ ":" ++ w] ++
                                clause fd (fun d => "from_publication_date:" ++ d) ++
                                clause td (fun d => "to_publication_date:" ++ d)))))).
Proof.
  split; [|split]; intros L Hn.
  - destruct (entity_lookup answer self _normalize_author_id (get_author answer self) "A"
                "authorships.author.id" x fs fd td sort page pp sel g L
                eq_refl eq_refl Hn eq_refl) as [E1 [_ E3]].
    split; [exact E1 | exact E3].
  - destruct (entity_lookup answer self _normalize_institution_id (get_institution answer self) "I"
                "authorships.institutions.id" x fs fd td sort page pp sel g L
                eq_refl eq_refl Hn eq_refl) as [E1 [_ E3]].
    split; [exact E1 | exact E3].
  - destruct (entity_lookup answer self _normalize_source_id (get_source answer self) "S"
                "primary_location.source.id" x fs fd td sort page pp sel g L
                eq_refl eq_refl Hn eq_refl) as [E1 [_ E3]].
    split; [exact E1 | exact E3].
Qed.

Lemma entity_works_lookup_witness :
  let L := {| req_method := "GET";
              req_path := "/authors/" ++
                          _normalize_author_id (_normalize_author_id "0000-0002-1825-0097");
              req_params := select_params default_client ["id"] |} in
  get_author_works (fun _ => Raise (RateLimitError None)) default_client
    "0000-0002-1825-0097" None None None None 1 25 None None =
  (Exn (RateLimitError None), [L]).
Proof.
  intros L.
  apply (proj1 (proj1 (entity_works_lookup (fun _ => Raise (RateLimitError None))
                         default_client "0000-0002-1825-0097" None None None None 1 25
                         None None) eq_refl) (RateLimitError None) eq_refl).
Defined.

End EndpointExtra.
